(** * ktm_can.decoder: decoding of KTM CAN bus messages

    A shallow embedding of [src/ktm_can/decoder.py].  Python integers are
    [Z], the payload [msg.data] is a bytes object ([list byte]), and the
    generator [Decoder.decode] is a resumption: a tree of [Yield] nodes
    that ends by returning or by raising a Python exception. *)

From Stdlib Require Import ZArith List Bool Lia.
From Stdlib Require Import Strings.String Strings.Ascii Strings.Byte.
From Stdlib Require Import Floats.PrimFloat Floats.SpecFloat Floats.FloatOps.
From Stdlib Require Import Numbers.Cyclic.Int63.Uint63.
Import ListNotations.

Open Scope string_scope.
Open Scope Z_scope.

(** ** Bit-manipulation primitives *)

Definition lo_nibble (b : Z) : Z := Z.land b 0x0F.

Definition hi_nibble (b : Z) : Z := Z.land (Z.shiftr b 4) 0x0F.

(** [-(value & 0b100000000000) | (value & 0b011111111111)]: unary minus
    binds tighter than [|]; Python's [|] on a negative integer works on
    its infinite two's complement, as [Z.lor] does. *)
Definition signed12 (value : Z) : Z :=
  Z.lor (- (Z.land value 0x800)) (Z.land value 0x7FF).

(** ** Python values and exceptions *)

Inductive exn : Type :=
| IndexError      (* subscript out of range *)
| StructError     (* struct.error: buffer of the wrong size *)
| AssertionError. (* a failed [assert] *)

Inductive value : Type :=
| VInt (n : Z)
| VBool (b : bool)
| VFloat (f : float)
| VStr (s : string).

(** The tuple [(id, key, value)] that [decode] yields. *)
Record Signal : Type := mkSignal {
  sig_id : Z;
  sig_name : string;
  sig_value : value
}.

Record Message : Type := mkMessage {
  msg_id : Z;
  msg_data : list byte
}.

Record Decoder : Type := mkDecoder {
  emit_unmapped : bool
}.

(** ** Generators

    The body of a generator function either returns, raises, or yields
    a signal and is suspended with the rest of the body. *)

Inductive gen (A : Type) : Type :=
| Ret (a : A)
| Raise (e : exn)
| Yield (s : Signal) (k : gen A).

Arguments Ret {A} a.
Arguments Raise {A} e.
Arguments Yield {A} s k.

Fixpoint bind {A B : Type} (m : gen A) (f : A -> gen B) : gen B :=
  match m with
  | Ret a => f a
  | Raise e => Raise e
  | Yield s k => Yield s (bind k f)
  end.

Declare Scope gen_scope.
Delimit Scope gen_scope with gen.
Notation "x <- m ;; k" := (bind m (fun x => k))
  (at level 100, m at next level, right associativity) : gen_scope.
Notation "m ;; k" := (bind m (fun _ => k))
  (at level 100, right associativity) : gen_scope.
Open Scope gen_scope.

(** [yield msg.id, key, v] *)
Definition yield (i : Z) (key : string) (v : value) : gen unit :=
  Yield (mkSignal i key v) (Ret tt).

(** [assert c] *)
Definition py_assert (c : bool) : gen unit :=
  if c then Ret tt else Raise AssertionError.

(** ** Operations on bytes objects *)

Definition byte_val (b : byte) : Z := Z.of_N (Byte.to_N b).

(** [data[i]] for a literal index [i >= 0]. *)
Definition getitem (data : list byte) (i : nat) : gen Z :=
  match nth_error data i with
  | Some b => Ret (byte_val b)
  | None => Raise IndexError
  end.

(** [data[lo:hi]] and [data[lo:]] for literal bounds: slices never raise. *)
Definition slice (data : list byte) (lo hi : nat) : list byte :=
  firstn (hi - lo) (skipn lo data).

Definition slice_from (data : list byte) (lo : nat) : list byte :=
  skipn lo data.

(** [struct.unpack(">H", buf)[0]]: a big-endian unsigned short; the buffer
    must hold exactly two bytes. *)
Definition unpack_H (buf : list byte) : gen Z :=
  match buf with
  | [hi; lo] => Ret (256 * byte_val hi + byte_val lo)
  | _ => Raise StructError
  end.

(** ** String formatting *)

Definition hex_digit (d : Z) : ascii :=
  if d <? 10 then ascii_of_nat (48 + Z.to_nat d)
  else ascii_of_nat (55 + Z.to_nat d).

Fixpoint hex_upper_aux (fuel : nat) (n : Z) (acc : string) : string :=
  match fuel with
  | O => acc
  | S fuel' =>
      let acc' := String (hex_digit (n mod 16)) acc in
      if n / 16 =? 0 then acc' else hex_upper_aux fuel' (n / 16) acc'
  end.

(** The uppercase hexadecimal digits of [n >= 0], no prefix. *)
Definition hex_upper (n : Z) : string :=
  hex_upper_aux (S (Z.to_nat (Z.log2 n))) n "".

Definition zero_pad (width : nat) (s : string) : string :=
  String.append
    (string_of_list_ascii (repeat "0"%char (width - String.length s))) s.

(** ["{:02X}".format(n)]: zero padding goes between the sign and the
    digits, and the sign counts in the width. *)
Definition format_02X (n : Z) : string :=
  if n <? 0 then String "-" (zero_pad 1 (hex_upper (- n)))
  else zero_pad 2 (hex_upper n).

(** [" ".join(cells)] *)
Definition join (sep : string) (cells : list string) : string :=
  String.concat sep cells.

(** [n / 10.0] for a Python int [n]: the int is converted to a double
    (exactly, for [0 <= n < 2^53]) and divided in IEEE 754 binary64. *)
Definition float_of_int (n : Z) : float := PrimFloat.of_uint63 (Uint63.of_Z n).

Definition div_10_0 (n : Z) : float := PrimFloat.div (float_of_int n) 10%float.

(** ** Decoder.decode *)

Definition decode (self : Decoder) (msg : Message) : gen unit :=
  let i := msg_id msg in
  let data := msg_data msg in
  if i =? 0x120 then
    rpm <- unpack_H (slice data 0 2) ;;
    yield i "rpm" (VInt rpm) ;;
    d2 <- getitem data 2 ;;
    yield i "throttle" (VInt d2) ;;
    d3 <- getitem data 3 ;;
    yield i "kill_switch" (VInt (Z.shiftr (Z.land d3 0x10) 4)) ;;
    d4 <- getitem data 4 ;;
    yield i "throttle_map" (VInt (Z.land d4 0x01)) ;;
    if emit_unmapped self then
      d3 <- getitem data 3 ;;
      d4 <- getitem data 4 ;;
      d5 <- getitem data 5 ;;
      d6 <- getitem data 6 ;;
      yield i "unmapped" (VStr (join " " [
        "__";
        "__";
        "__";
        format_02X (Z.land d3 (Z.land (Z.lnot 0x10) 0xFF));
        format_02X (Z.land d4 (Z.land (Z.lnot 0x01) 0xFF));
        format_02X d5;
        format_02X d6;
        "__"
      ]))
    else Ret tt
  else if i =? 0x129 then
    d0 <- getitem data 0 ;;
    yield i "gear" (VInt (hi_nibble d0)) ;;
    d0 <- getitem data 0 ;;
    yield i "clutch_in" (VBool (Z.shiftr (Z.land d0 0x08) 3 =? 1)) ;;
    if emit_unmapped self then
      d1 <- getitem data 1 ;;
      d2 <- getitem data 2 ;;
      d3 <- getitem data 3 ;;
      d4 <- getitem data 4 ;;
      d5 <- getitem data 5 ;;
      d6 <- getitem data 6 ;;
      yield i "unmapped" (VStr (join " " [
        "__";
        format_02X d1;
        format_02X d2;
        format_02X d3;
        format_02X d4;
        format_02X d5;
        format_02X d6;
        "__"
      ]))
    else Ret tt
  else if i =? 0x12A then
    d1 <- getitem data 1 ;;
    yield i "requested_throttle_map" (VInt (Z.shiftr (Z.land d1 0x40) 6)) ;;
    if emit_unmapped self then
      d0 <- getitem data 0 ;;
      d1 <- getitem data 1 ;;
      d2 <- getitem data 2 ;;
      d3 <- getitem data 3 ;;
      d4 <- getitem data 4 ;;
      d5 <- getitem data 5 ;;
      d6 <- getitem data 6 ;;
      d7 <- getitem data 7 ;;
      yield i "unmapped" (VStr (join " " [
        format_02X d0;
        format_02X (Z.land d1 (Z.land (Z.lnot 0x40) 0xFF));
        format_02X d2;
        format_02X d3;
        format_02X d4;
        format_02X d5;
        format_02X d6;
        format_02X d7
      ]))
    else Ret tt
  else if i =? 0x12B then
    d5 <- getitem data 5 ;;
    d6 <- getitem data 6 ;;
    yield i "tilt?" (VInt (signed12 (Z.lor (Z.shiftl d5 4) (hi_nibble d6)))) ;;
    d6 <- getitem data 6 ;;
    d7 <- getitem data 7 ;;
    yield i "lean?" (VInt (signed12 (Z.lor (Z.shiftl (lo_nibble d6) 8) d7))) ;;
    if emit_unmapped self then
      d2 <- getitem data 2 ;;
      d3 <- getitem data 3 ;;
      yield i "unmapped" (VStr (join " " [
        "__";
        "__";
        format_02X d2;
        format_02X d3;
        "__";
        "__";
        "__";
        "__"
      ]))
    else Ret tt
  else if i =? 0x540 then
    d0 <- getitem data 0 ;;
    py_assert (d0 =? 0x02) ;;
    rpm <- unpack_H (slice data 1 3) ;;
    yield i "rpm" (VInt rpm) ;;
    d4 <- getitem data 4 ;;
    yield i "kickstand_up" (VBool (Z.land d4 0x01 =? 1)) ;;
    d4 <- getitem data 4 ;;
    yield i "kickstand_err" (VBool (Z.shiftr (Z.land d4 0x80) 7 =? 1)) ;;
    d5 <- getitem data 5 ;;
    py_assert (d5 =? 0x00) ;;
    temp <- unpack_H (slice_from data 6) ;;
    yield i "coolant_temp" (VFloat (div_10_0 temp)) ;;
    if emit_unmapped self then
      d3 <- getitem data 3 ;;
      d4 <- getitem data 4 ;;
      yield i "unmapped" (VStr (join " " [
        "__";
        "__";
        "__";
        format_02X d3;
        format_02X (Z.land d4 0x7E);
        "__";
        "__";
        "__"
      ]))
    else Ret tt
  else Ret tt.

(** ** Consuming a generator *)

(** What one call of [next] reports. *)
Inductive step : Type :=
| Yielded (s : Signal)
| Raised (e : exn)
| StopIteration.

(** [next(g)]: run the body up to its next [yield]; a generator that has
    raised or returned is finished. *)
Definition next (g : gen unit) : step * gen unit :=
  match g with
  | Yield s k => (Yielded s, k)
  | Raise e => (Raised e, Ret tt)
  | Ret _ => (StopIteration, Ret tt)
  end.

(** The signals a consumer receives when it drains the generator, and the
    exception, if any, that ends the iteration. *)
Fixpoint signals {A : Type} (g : gen A) : list Signal :=
  match g with
  | Yield s k => s :: signals k
  | _ => []
  end.

Fixpoint outcome {A : Type} (g : gen A) : option exn :=
  match g with
  | Ret _ => None
  | Raise e => Some e
  | Yield _ k => outcome k
  end.

(** [itertools.islice(g, n)] drained: a consumer that asks for at most
    [n] elements and keeps the generator. *)
Fixpoint take (n : nat) (g : gen unit) : list Signal * option exn * gen unit :=
  match n with
  | O => ([], None, g)
  | S n' =>
      match next g with
      | (Yielded s, k) =>
          let '(l, e, g') := take n' k in (s :: l, e, g')
      | (Raised e, k) => ([], Some e, k)
      | (StopIteration, k) => ([], None, k)
      end
  end.

(** The value a consumer finds under [key] among the signals of a frame,
    as in [dict((k, v) for _, k, v in decoder.decode(msg))[key]] for a key
    that occurs once. *)
Fixpoint lookup (key : string) (l : list Signal) : option value :=
  match l with
  | [] => None
  | s :: l' => if String.eqb (sig_name s) key then Some (sig_value s)
               else lookup key l'
  end.

Definition decoded (self : Decoder) (msg : Message) (key : string)
  : option value :=
  lookup key (signals (decode self msg)).

(** The big-endian reading of a byte string as an unsigned integer. *)
Definition be_uint (bs : list byte) : Z :=
  fold_left (fun acc b => 256 * acc + byte_val b) bs 0.

(** ** Definitions used by the statements *)

Definition known_id (i : Z) : bool :=
  (i =? 0x120) || (i =? 0x129) || (i =? 0x12A) || (i =? 0x12B) || (i =? 0x540).

(** The diagnostic signal that ends the 0x120 handler. *)
Definition unmapped_0x120 (self : Decoder) (b3 b4 b5 b6 : byte) : gen unit :=
  if emit_unmapped self then
    yield 0x120 "unmapped" (VStr (join " " [
      "__"; "__"; "__";
      format_02X (Z.land (byte_val b3) 0xEF);
      format_02X (Z.land (byte_val b4) 0xFE);
      format_02X (byte_val b5);
      format_02X (byte_val b6);
      "__"]))
  else Ret tt.

Definition unmapped_0x540 (self : Decoder) (b3 b4 : byte) : gen unit :=
  if emit_unmapped self then
    yield 0x540 "unmapped" (VStr (join " " [
      "__"; "__"; "__";
      format_02X (byte_val b3);
      format_02X (Z.land (byte_val b4) 0x7E);
      "__"; "__"; "__"]))
  else Ret tt.

Definition rpm_0x540 (b1 b2 : byte) : Signal :=
  mkSignal 0x540 "rpm" (VInt (256 * byte_val b1 + byte_val b2)).

Definition kickstand_up_0x540 (b4 : byte) : Signal :=
  mkSignal 0x540 "kickstand_up" (VBool (Z.land (byte_val b4) 0x01 =? 1)).

Definition kickstand_err_0x540 (b4 : byte) : Signal :=
  mkSignal 0x540 "kickstand_err"
    (VBool (Z.shiftr (Z.land (byte_val b4) 0x80) 7 =? 1)).

(** A constant byte of a 0x540 frame that is present and has the wrong
    value: byte 0 other than 0x02, or byte 5 other than 0x00. *)
Definition bad_constant (data : list byte) : Prop :=
  (exists b, nth_error data 0 = Some b /\ byte_val b <> 0x02) \/
  (exists b, nth_error data 5 = Some b /\ byte_val b <> 0x00).

(** [f] is a positive normal double [m * 2^e] within half a unit in the
    last place of the exact quotient [v / 10], or zero when [v] is:
    [|v / 10 - m * 2^e| <= 2^e / 2], cleared of fractions. *)
Definition within_half_ulp_of_tenth (v : Z) (f : float) : bool :=
  match Prim2SF f with
  | S754_zero false => v =? 0
  | S754_finite false m e =>
      (e <? 0) && (2 ^ 52 <=? Z.pos m) && (Z.pos m <? 2 ^ 53) &&
      (Z.abs (v * 2 ^ (- e) - 10 * Z.pos m) <=? 5)
  | _ => false
  end.

Fixpoint all_from (P : Z -> bool) (start : Z) (count : nat) : bool :=
  match count with
  | O => true
  | S count' => P start && all_from P (start + 1) count'
  end.

Definition all_below (P : Z -> bool) (n : Z) : bool :=
  all_from P 0 (Z.to_nat n).

(** The names the specification lists, and the names the code yields:
    the handler of 0x12B marks its two names as unconfirmed with a
    question mark. *)
Definition spec_vocabulary : list string :=
  ["rpm"; "throttle"; "kill_switch"; "gear"; "clutch_in"; "tilt"; "lean";
   "coolant_temp"; "kickstand_up"; "kickstand_err";
   "requested_throttle_map"; "throttle_map"; "unmapped"].

Definition emitted_vocabulary : list string :=
  ["rpm"; "throttle"; "kill_switch"; "gear"; "clutch_in"; "tilt?"; "lean?";
   "coolant_temp"; "kickstand_up"; "kickstand_err";
   "requested_throttle_map"; "throttle_map"; "unmapped"].

Definition mem (key : string) (V : list string) : bool :=
  existsb (String.eqb key) V.

Definition names_within (V : list string) : Prop :=
  forall (self : Decoder) (msg : Message) (s : Signal),
    In s (signals (decode self msg)) -> mem (sig_name s) V = true.

Definition names_ok {A : Type} (V : list string) (g : gen A) : Prop :=
  Forall (fun s => mem (sig_name s) V = true) (signals g).

Definition zero_payload : list byte :=
  [x00; x00; x00; x00; x00; x00; x00; x00].

(** The number of payload bytes a handler reads: one more than the highest
    index it subscripts, and for 0x540 the eight bytes that make
    [data[6:]] a buffer of two. *)
Definition required_len (self : Decoder) (i : Z) : nat :=
  if i =? 0x120 then (if emit_unmapped self then 7 else 5)
  else if i =? 0x129 then (if emit_unmapped self then 7 else 1)
  else if i =? 0x12A then (if emit_unmapped self then 8 else 2)
  else if i =? 0x12B then 8
  else if i =? 0x540 then 8
  else 0.

(** One exception, other than the assertion failure, that every short
    frame of a known identifier ends in. *)
Definition dedicated_length_error : Prop :=
  exists e : exn,
    e <> AssertionError /\
    forall (self : Decoder) (i : Z) (data : list byte),
      known_id i = true ->
      (List.length data < required_len self i)%nat ->
      outcome (decode self (mkMessage i data)) = Some e.

Definition hex_digits : string := "0123456789ABCDEF".

(** Two uppercase hexadecimal digits, high digit first. *)
Definition two_hex (n : Z) : string :=
  let digit d :=
    match String.get (Z.to_nat d) hex_digits with
    | Some c => c
    | None => " "%char
    end in
  String (digit (n / 16)) (String (digit (n mod 16)) "").

(** The bits of byte [k] that the named fields of identifier [i] read,
    after the layout table of the specification. *)
Definition spec_consumed_bits (i : Z) (k : nat) : Z :=
  if i =? 0x120 then
    match k with
    | 0%nat | 1%nat => 0xFF   (* rpm *)
    | 2%nat => 0xFF           (* throttle *)
    | 3%nat => 0x10           (* kill_switch *)
    | 4%nat => 0x01           (* throttle_map *)
    | _ => 0
    end
  else if i =? 0x129 then
    match k with
    | 0%nat => 0xF8           (* gear, clutch_in *)
    | _ => 0
    end
  else if i =? 0x12A then
    match k with
    | 1%nat => 0x40           (* requested_throttle_map *)
    | _ => 0
    end
  else if i =? 0x12B then
    match k with
    | 5%nat | 6%nat | 7%nat => 0xFF   (* tilt, lean *)
    | _ => 0
    end
  else if i =? 0x540 then
    match k with
    | 1%nat | 2%nat => 0xFF   (* rpm *)
    | 4%nat => 0x81           (* kickstand_up, kickstand_err *)
    | 6%nat | 7%nat => 0xFF   (* coolant_temp *)
    | _ => 0
    end
  else 0.

(** The diagnostic as the specification words it: the placeholder for a
    byte that named fields consume whole, and otherwise the byte in hex
    with the consumed bits cleared. *)
Definition spec_cell (i : Z) (k : nat) (b : byte) : string :=
  let m := spec_consumed_bits i k in
  if m =? 0xFF then "__" else two_hex (Z.land (byte_val b) (Z.lxor m 0xFF)).

Fixpoint spec_cells (i : Z) (k : nat) (data : list byte) : list string :=
  match data with
  | [] => []
  | b :: data' => spec_cell i k b :: spec_cells i (S k) data'
  end.

Definition spec_unmapped (i : Z) (data : list byte) : string :=
  join " " (spec_cells i 0 data).

Definition unmapped_as_specified : Prop :=
  forall (i : Z) (b0 b1 b2 b3 b4 b5 b6 b7 : byte) (v : value),
    let data := [b0; b1; b2; b3; b4; b5; b6; b7] in
    known_id i = true ->
    decoded (mkDecoder true) (mkMessage i data) "unmapped" = Some v ->
    v = VStr (spec_unmapped i data).

(** The bytes that no named field reads and that the comments of the
    handlers hold to be constant or a counter. *)
Definition believed_fixed (i : Z) (k : nat) : bool :=
  if i =? 0x120 then Nat.eqb k 7
  else if i =? 0x129 then Nat.eqb k 7
  else if i =? 0x12B then Nat.eqb k 0 || Nat.eqb k 1 || Nat.eqb k 4
  else if i =? 0x540 then Nat.eqb k 0 || Nat.eqb k 5
  else false.

(** What the amended claim says of cell [k]; byte 0 of 0x129 is left
    open. *)
Definition cell_ok (i : Z) (k : nat) (b : byte) (cell : string) : Prop :=
  if (spec_consumed_bits i k =? 0xFF) || believed_fixed i k then
    cell = "__"
  else if (i =? 0x129) && Nat.eqb k 0 then
    True
  else
    cell = two_hex (Z.land (byte_val b) (Z.lxor (spec_consumed_bits i k) 0xFF)).

Fixpoint cells_ok (i : Z) (k : nat) (data : list byte) (cells : list string)
  : Prop :=
  match data, cells with
  | [], [] => True
  | b :: data', c :: cells' => cell_ok i k b c /\ cells_ok i (S k) data' cells'
  | _, _ => False
  end.

(** ** Definitions used by the further properties *)

(** [Decoder.__init__(self, emit_unmapped=False)]: [None] is the call
    that leaves the keyword out. *)
Definition Decoder_init (emit_unmapped : option bool) : Decoder :=
  mkDecoder (match emit_unmapped with Some b => b | None => false end).

(** [Message.__init__(self, sender_id, data)] *)
Definition Message_init (sender_id : Z) (data : list byte) : Message :=
  mkMessage sender_id data.

Definition all_signals {A : Type} (P : Signal -> Prop) (g : gen A) : Prop :=
  Forall P (signals g).

(** The number of named signals in the handler of an identifier. *)
Definition named_signals (i : Z) : nat :=
  if i =? 0x120 then 4
  else if i =? 0x129 then 2
  else if i =? 0x12A then 1
  else if i =? 0x12B then 2
  else if i =? 0x540 then 4
  else 0.

(** One of the characters 0-9, A-F. *)
Definition is_hex_upper (c : ascii) : bool :=
  existsb (Ascii.eqb c) (list_ascii_of_string hex_digits).

(** * Properties *)

(** ** Bits and bytes *)

Lemma byte_val_range (b : byte) : 0 <= byte_val b < 256.
Proof.
  unfold byte_val. pose proof (Byte.to_N_bounded b). lia.
Qed.

Lemma land_pow2 (v n : Z) :
  0 <= n -> Z.land v (2 ^ n) = if Z.testbit v n then 2 ^ n else 0.
Proof.
  intros Hn. apply Z.bits_inj'. intros m Hm.
  rewrite Z.land_spec, Z.pow2_bits_eqb by assumption.
  destruct (Z.eqb_spec n m) as [->|Hne].
  - rewrite andb_true_r.
    destruct (Z.testbit v m) eqn:E.
    + now rewrite Z.pow2_bits_true.
    + now rewrite Z.bits_0.
  - rewrite andb_false_r.
    destruct (Z.testbit v n).
    + now rewrite Z.pow2_bits_false.
    + now rewrite Z.bits_0.
Qed.

Lemma extract_bit (v n : Z) :
  0 <= n -> Z.shiftr (Z.land v (2 ^ n)) n = Z.b2z (Z.testbit v n).
Proof.
  intros Hn. rewrite land_pow2 by assumption.
  destruct (Z.testbit v n); cbn [Z.b2z].
  - rewrite Z.shiftr_div_pow2 by assumption.
    apply Z.div_same. pose proof (Z.pow_pos_nonneg 2 n). lia.
  - apply Z.shiftr_0_l.
Qed.

(** ** signed12 *)

Lemma land_neg_pow2_low (r n : Z) :
  0 <= n -> 0 <= r < 2 ^ n -> Z.land (- 2 ^ n) r = 0.
Proof.
  intros Hn Hr. apply Z.bits_inj'. intros m Hm.
  rewrite Z.land_spec, Z.bits_0.
  destruct (Z.ltb_spec m n) as [Hlt|Hge].
  - replace (- 2 ^ n) with ((-1) * 2 ^ n) by lia.
    now rewrite Z.mul_pow2_bits_low.
  - rewrite <- (Z.mod_small r (2 ^ n)) by assumption.
    rewrite Z.mod_pow2_bits_high by lia. apply andb_false_r.
Qed.

(** [signed12] on any integer: the low eleven bits, minus the weight of
    bit 11. *)
Lemma signed12_bits (v : Z) :
  signed12 v = v mod 2048 - (if Z.testbit v 11 then 2048 else 0).
Proof.
  unfold signed12.
  change 0x7FF with (Z.ones 11). rewrite Z.land_ones by lia.
  change 0x800 with (2 ^ 11). rewrite land_pow2 by lia.
  change (2 ^ 11) with 2048.
  destruct (Z.testbit v 11).
  - pose proof (Z.add_lor_land (Z.opp 2048) (v mod 2048)) as H.
    assert (L : Z.land (Z.opp 2048) (v mod 2048) = 0).
    { apply (land_neg_pow2_low (v mod 2048) 11); [lia|].
      change (2 ^ 11) with 2048. apply Z.mod_pos_bound. lia. }
    rewrite L in H. lia.
  - cbn [Z.opp]. rewrite Z.lor_0_l. lia.
Qed.

Lemma testbit11_12bit (v : Z) :
  0 <= v <= 4095 -> Z.testbit v 11 = (2048 <=? v).
Proof.
  intros Hv. rewrite Z.testbit_eqb by lia. change (2 ^ 11) with 2048.
  destruct (Z.leb_spec 2048 v); destruct (Z.eqb_spec ((v / 2048) mod 2) 1);
    try reflexivity; exfalso; Z.div_mod_to_equations; lia.
Qed.

(** C4: for every 12-bit [v], [signed12 v] is [v] when bit 11 is clear and
    [v - 4096] when it is set; it lies in [-2048, 2047] and is congruent
    to [v] modulo 4096; at the boundaries 0x000, 0x001, 0x800 and 0xFFF it
    gives 0, 1, -2048 and -1. *)
Theorem signed12_correct :
  (forall v : Z, 0 <= v <= 4095 ->
     signed12 v = (if Z.testbit v 11 then v - 4096 else v) /\
     -2048 <= signed12 v <= 2047 /\
     signed12 v mod 4096 = v mod 4096) /\
  signed12 0x000 = 0 /\ signed12 0x001 = 1 /\
  signed12 0x800 = -2048 /\ signed12 0xFFF = -1.
Proof.
  split; [|repeat split; reflexivity].
  intros v Hv.
  assert (E : signed12 v = if Z.testbit v 11 then v - 4096 else v).
  { rewrite signed12_bits, testbit11_12bit by assumption.
    destruct (Z.leb_spec 2048 v); Z.div_mod_to_equations; lia. }
  rewrite E, testbit11_12bit by assumption.
  destruct (Z.leb_spec 2048 v).
  - repeat split; try lia.
    replace (v - 4096) with (v + (-1) * 4096) by lia.
    apply Z.mod_add. lia.
  - repeat split; try lia.
Qed.

Lemma signed12_correct_witness :
  0 <= 0x9A5 <= 4095 /\ signed12 0x9A5 = 0x9A5 - 4096.
Proof.
  split; [lia|].
  exact (proj1 (proj1 signed12_correct 0x9A5 ltac:(lia))).
Defined.

(** ** Dispatch *)

Lemma decode_unknown (self : Decoder) (i : Z) (data : list byte) :
  known_id i = false -> decode self (mkMessage i data) = Ret tt.
Proof.
  unfold known_id. intros H.
  repeat (apply orb_false_elim in H; destruct H as [H ?]).
  unfold decode. cbn [msg_id msg_data].
  repeat match goal with E : (i =? _) = false |- _ => rewrite E; clear E end.
  reflexivity.
Qed.

(** C8: a frame whose identifier is none of 0x120, 0x129, 0x12A, 0x12B,
    0x540 decodes, for every payload and either setting of
    [emit_unmapped], to the empty sequence, and no exception is raised. *)
Theorem decode_unknown_id_empty :
  forall (self : Decoder) (i : Z) (data : list byte),
    i <> 0x120 -> i <> 0x129 -> i <> 0x12A -> i <> 0x12B -> i <> 0x540 ->
    decode self (mkMessage i data) = Ret tt /\
    signals (decode self (mkMessage i data)) = [] /\
    outcome (decode self (mkMessage i data)) = None /\
    fst (next (decode self (mkMessage i data))) = StopIteration.
Proof.
  intros self i data H1 H2 H3 H4 H5.
  assert (K : known_id i = false).
  { unfold known_id.
    repeat match goal with
           | H : i <> ?c |- _ => apply Z.eqb_neq in H; rewrite H; clear H
           end.
    reflexivity. }
  rewrite (decode_unknown self i data K). repeat split.
Qed.

Lemma decode_unknown_id_empty_witness :
  signals (decode (mkDecoder true)
             (mkMessage 0x200 [x01; x02; x03; x04; x05; x06; x07; x08])) = [] /\
  outcome (decode (mkDecoder false) (mkMessage 0x200 [])) = None.
Proof.
  split.
  - exact (proj1 (proj2 (decode_unknown_id_empty (mkDecoder true) 0x200
             [x01; x02; x03; x04; x05; x06; x07; x08]
             ltac:(lia) ltac:(lia) ltac:(lia) ltac:(lia) ltac:(lia)))).
  - exact (proj1 (proj2 (proj2 (decode_unknown_id_empty (mkDecoder false) 0x200 []
             ltac:(lia) ltac:(lia) ltac:(lia) ltac:(lia) ltac:(lia))))).
Defined.

(** ** Identifier 0x120 *)

Lemma decode_0x120_trace (self : Decoder) (b0 b1 b2 b3 b4 b5 b6 b7 : byte) :
  decode self (mkMessage 0x120 [b0; b1; b2; b3; b4; b5; b6; b7]) =
  Yield (mkSignal 0x120 "rpm" (VInt (256 * byte_val b0 + byte_val b1)))
 (Yield (mkSignal 0x120 "throttle" (VInt (byte_val b2)))
 (Yield (mkSignal 0x120 "kill_switch"
           (VInt (Z.shiftr (Z.land (byte_val b3) 0x10) 4)))
 (Yield (mkSignal 0x120 "throttle_map" (VInt (Z.land (byte_val b4) 0x01)))
 (unmapped_0x120 self b3 b4 b5 b6)))).
Proof.
  unfold unmapped_0x120. destruct self as [[|]]; reflexivity.
Qed.

Lemma kill_switch_bit (b : byte) :
  Z.shiftr (Z.land (byte_val b) 0x10) 4 = Z.b2z (Z.testbit (byte_val b) 4).
Proof. change 0x10 with (2 ^ 4). apply extract_bit. lia. Qed.

Lemma throttle_map_bit (b : byte) :
  Z.land (byte_val b) 0x01 = Z.b2z (Z.testbit (byte_val b) 0).
Proof.
  change 0x01 with (2 ^ 0). rewrite land_pow2 by lia.
  destruct (Z.testbit (byte_val b) 0); reflexivity.
Qed.

Lemma be_uint_2 (hi lo : byte) :
  be_uint [hi; lo] = 256 * byte_val hi + byte_val lo.
Proof. unfold be_uint. cbn [fold_left]. lia. Qed.

Lemma decoded_0x120 (self : Decoder) (b0 b1 b2 b3 b4 b5 b6 b7 : byte) :
  let msg := mkMessage 0x120 [b0; b1; b2; b3; b4; b5; b6; b7] in
  decoded self msg "rpm" = Some (VInt (be_uint [b0; b1])) /\
  decoded self msg "throttle" = Some (VInt (byte_val b2)) /\
  decoded self msg "kill_switch" =
    Some (VInt (Z.b2z (Z.testbit (byte_val b3) 4))) /\
  decoded self msg "throttle_map" =
    Some (VInt (Z.b2z (Z.testbit (byte_val b4) 0))).
Proof.
  intros msg. unfold decoded, msg. rewrite decode_0x120_trace.
  rewrite be_uint_2, <- kill_switch_bit, <- throttle_map_bit.
  repeat split.
Qed.

(** C5: for every 8-byte payload of a 0x120 frame, [rpm] is the big-endian
    unsigned 16-bit value of bytes 0-1 (6699 for 0x1A, 0x2B), [throttle]
    is byte 2 as an unsigned 8-bit value, [kill_switch] is bit 4 of byte 3
    and [throttle_map] is bit 0 of byte 4, each 0 or 1. *)
Theorem decode_0x120_fields :
  (forall (self : Decoder) (b0 b1 b2 b3 b4 b5 b6 b7 : byte),
     let msg := mkMessage 0x120 [b0; b1; b2; b3; b4; b5; b6; b7] in
     decoded self msg "rpm" = Some (VInt (be_uint [b0; b1])) /\
     0 <= be_uint [b0; b1] < 65536 /\
     decoded self msg "throttle" = Some (VInt (byte_val b2)) /\
     0 <= byte_val b2 < 256 /\
     decoded self msg "kill_switch" =
       Some (VInt (Z.b2z (Z.testbit (byte_val b3) 4))) /\
     decoded self msg "throttle_map" =
       Some (VInt (Z.b2z (Z.testbit (byte_val b4) 0)))) /\
  (forall (self : Decoder) (b2 b3 b4 b5 b6 b7 : byte),
     decoded self (mkMessage 0x120 [x1a; x2b; b2; b3; b4; b5; b6; b7]) "rpm" =
       Some (VInt 6699)).
Proof.
  split.
  - intros self b0 b1 b2 b3 b4 b5 b6 b7 msg.
    destruct (decoded_0x120 self b0 b1 b2 b3 b4 b5 b6 b7) as (R & T & K & M).
    pose proof (byte_val_range b0). pose proof (byte_val_range b1).
    pose proof (byte_val_range b2). rewrite be_uint_2 in *.
    repeat split; try assumption; lia.
  - intros self b2 b3 b4 b5 b6 b7.
    destruct (decoded_0x120 self x1a x2b b2 b3 b4 b5 b6 b7) as (R & _).
    exact R.
Qed.

(** C7: two 0x120 payloads that agree on bit 4 of byte 3 decode to the
    same [kill_switch], two that agree on bit 0 of byte 4 to the same
    [throttle_map], whatever their other bits; both values are 0 or 1. *)
Theorem mask_independence_0x120 :
  forall (self self' : Decoder)
         (b0 b1 b2 b3 b4 b5 b6 b7 c0 c1 c2 c3 c4 c5 c6 c7 : byte),
    let m := mkMessage 0x120 [b0; b1; b2; b3; b4; b5; b6; b7] in
    let m' := mkMessage 0x120 [c0; c1; c2; c3; c4; c5; c6; c7] in
    (Z.testbit (byte_val b3) 4 = Z.testbit (byte_val c3) 4 ->
     decoded self m "kill_switch" = decoded self' m' "kill_switch") /\
    (Z.testbit (byte_val b4) 0 = Z.testbit (byte_val c4) 0 ->
     decoded self m "throttle_map" = decoded self' m' "throttle_map") /\
    (decoded self m "kill_switch" = Some (VInt 0) \/
     decoded self m "kill_switch" = Some (VInt 1)) /\
    (decoded self m "throttle_map" = Some (VInt 0) \/
     decoded self m "throttle_map" = Some (VInt 1)).
Proof.
  intros self self' b0 b1 b2 b3 b4 b5 b6 b7 c0 c1 c2 c3 c4 c5 c6 c7 m m'.
  destruct (decoded_0x120 self b0 b1 b2 b3 b4 b5 b6 b7) as (_ & _ & K & M).
  destruct (decoded_0x120 self' c0 c1 c2 c3 c4 c5 c6 c7) as (_ & _ & K' & M').
  fold m in K, M. fold m' in K', M'.
  rewrite K, M, K', M'. repeat split.
  - intros E. now rewrite E.
  - intros E. now rewrite E.
  - destruct (Z.testbit (byte_val b3) 4); auto.
  - destruct (Z.testbit (byte_val b4) 0); auto.
Qed.

Lemma mask_independence_0x120_witness :
  decoded (mkDecoder false)
    (mkMessage 0x120 [x00; x00; x00; x10; x01; x00; x00; x00]) "kill_switch" =
  decoded (mkDecoder true)
    (mkMessage 0x120 [xff; xff; xff; xff; xff; xff; xff; xff]) "kill_switch" /\
  decoded (mkDecoder false)
    (mkMessage 0x120 [x00; x00; x00; x10; x01; x00; x00; x00]) "throttle_map" =
  decoded (mkDecoder true)
    (mkMessage 0x120 [xff; xff; xff; xff; xff; xff; xff; xff]) "throttle_map".
Proof.
  pose proof (mask_independence_0x120 (mkDecoder false) (mkDecoder true)
    x00 x00 x00 x10 x01 x00 x00 x00 xff xff xff xff xff xff xff xff) as H.
  cbv zeta in H. destruct H as (K & M & _).
  split; [apply K | apply M]; reflexivity.
Defined.

(** ** Identifier 0x540 *)

(** Select the branch of [decode] for a literal identifier. *)
Ltac dispatch :=
  unfold decode; cbn [msg_id msg_data];
  repeat match goal with
         | |- context [Z.eqb (Zpos ?p) (Zpos ?q)] =>
             let v := eval vm_compute in (Z.eqb (Zpos p) (Zpos q)) in
             change (Z.eqb (Zpos p) (Zpos q)) with v
         end;
  cbv iota.

Lemma decode_0x540_trace (self : Decoder) (b0 b1 b2 b3 b4 b5 b6 b7 : byte) :
  decode self (mkMessage 0x540 [b0; b1; b2; b3; b4; b5; b6; b7]) =
  if byte_val b0 =? 0x02 then
    Yield (rpm_0x540 b1 b2)
   (Yield (kickstand_up_0x540 b4)
   (Yield (kickstand_err_0x540 b4)
     (if byte_val b5 =? 0x00 then
        Yield (mkSignal 0x540 "coolant_temp"
                 (VFloat (div_10_0 (256 * byte_val b6 + byte_val b7))))
          (unmapped_0x540 self b3 b4)
      else Raise AssertionError)))
  else Raise AssertionError.
Proof.
  dispatch. unfold unmapped_0x540.
  cbn [getitem nth_error bind].
  destruct (byte_val b0 =? 2); [|reflexivity].
  destruct (byte_val b5 =? 0); destruct self as [[|]]; reflexivity.
Qed.

Ltac destruct_payload data :=
  destruct data as [|? [|? [|? [|? [|? [|? [|? [|? [|? ?]]]]]]]]].

Ltac run_handler :=
  dispatch;
  cbn [getitem nth_error bind unpack_H slice slice_from firstn skipn Nat.sub
       py_assert yield outcome signals emit_unmapped].

Ltac split_byte_tests :=
  repeat match goal with
         | |- context [byte_val ?b =? ?c] =>
             destruct (Z.eqb_spec (byte_val b) c); run_handler
         end.

(** For a payload of any length, the 0x540 handler ends in
    [AssertionError] exactly when a constant byte is wrong. *)
Lemma assertion_error_0x540 (self : Decoder) (data : list byte) :
  outcome (decode self (mkMessage 0x540 data)) = Some AssertionError <->
  bad_constant data.
Proof.
  unfold bad_constant.
  destruct self as [[|]]; destruct_payload data; run_handler; split_byte_tests.
  all: split;
    [ intros H;
      first [ discriminate H
            | left; eexists; split; [reflexivity|assumption]
            | right; eexists; split; [reflexivity|assumption] ]
    | try reflexivity;
      intros [(x & E & N)|(x & E & N)]; cbn in E;
      first [ discriminate E | injection E as <-; contradiction ] ].
Qed.

(** The other handlers hold no [assert]. *)
Lemma assertion_error_only_0x540 (self : Decoder) (msg : Message) :
  outcome (decode self msg) = Some AssertionError ->
  msg_id msg = 0x540 /\ bad_constant (msg_data msg).
Proof.
  destruct msg as [i data]. cbn [msg_id msg_data]. intros H.
  destruct (Z.eq_dec i 0x540) as [->|N540].
  { split; [reflexivity|]. now apply (assertion_error_0x540 self). }
  exfalso. revert H.
  destruct (Z.eq_dec i 0x120) as [->|N120];
    [|destruct (Z.eq_dec i 0x129) as [->|N129];
      [|destruct (Z.eq_dec i 0x12A) as [->|N12A];
        [|destruct (Z.eq_dec i 0x12B) as [->|N12B]]]].
  1-4: destruct self as [[|]]; destruct_payload data; run_handler;
       discriminate.
  rewrite decode_unknown; [discriminate|].
  unfold known_id.
  repeat match goal with
         | H : i <> ?c |- _ => apply Z.eqb_neq in H; rewrite H; clear H
         end.
  reflexivity.
Qed.

(** C6: a 0x540 frame whose byte 0 is not 0x02, or whose byte 5 is not
    0x00, ends in [AssertionError]: an exception of its own, different
    from the [IndexError] and [struct.error] of a payload that is too
    short, and raised by no frame whose constant bytes are as expected. *)
Theorem bad_constant_raises_assertion :
  forall (self : Decoder) (data : list byte) (b0 b5 : byte),
    nth_error data 0 = Some b0 -> nth_error data 5 = Some b5 ->
    byte_val b0 <> 0x02 \/ byte_val b5 <> 0x00 ->
    outcome (decode self (mkMessage 0x540 data)) = Some AssertionError /\
    AssertionError <> IndexError /\ AssertionError <> StructError /\
    (forall (self' : Decoder) (msg' : Message),
       outcome (decode self' msg') = Some AssertionError ->
       msg_id msg' = 0x540 /\ bad_constant (msg_data msg')).
Proof.
  intros self data b0 b5 E0 E5 H. repeat split; try discriminate.
  - apply assertion_error_0x540. unfold bad_constant.
    destruct H; [left; exists b0 | right; exists b5]; auto.
  - now apply (assertion_error_only_0x540 self').
  - now apply (assertion_error_only_0x540 self').
Qed.

Lemma bad_constant_raises_assertion_witness :
  outcome (decode (mkDecoder false)
             (mkMessage 0x540 [x03; x00; x00; x00; x00; x00; x01; x2c])) =
    Some AssertionError /\
  outcome (decode (mkDecoder true)
             (mkMessage 0x540 [x02; x00; x00; x00; x00; x07; x01; x2c])) =
    Some AssertionError.
Proof.
  split.
  - refine (proj1 (bad_constant_raises_assertion (mkDecoder false)
      [x03; x00; x00; x00; x00; x00; x01; x2c] x03 x00 eq_refl eq_refl _)).
    left. vm_compute. discriminate.
  - refine (proj1 (bad_constant_raises_assertion (mkDecoder true)
      [x02; x00; x00; x00; x00; x07; x01; x2c] x02 x07 eq_refl eq_refl _)).
    right. vm_compute. discriminate.
Defined.

(** *** coolant_temp *)

Lemma all_from_spec (P : Z -> bool) (count : nat) :
  forall start, all_from P start count = true ->
  forall v, start <= v < start + Z.of_nat count -> P v = true.
Proof.
  induction count as [|c IH]; intros start H v Hv.
  - lia.
  - cbn [all_from] in H. apply andb_prop in H. destruct H as [H0 H1].
    destruct (Z.eq_dec v start) as [->|Hne]; [assumption|].
    apply (IH (start + 1) H1). lia.
Qed.

Lemma all_below_spec (P : Z -> bool) (n : Z) :
  all_below P n = true -> forall v : Z, 0 <= v < n -> P v = true.
Proof.
  unfold all_below. intros H v Hv. apply (all_from_spec P _ 0 H). lia.
Qed.

Lemma div_10_0_all_uint16 :
  all_below (fun v => within_half_ulp_of_tenth v (div_10_0 v)) 65536 = true.
Proof. vm_compute. reflexivity. Qed.

(** Over the range of an unsigned short, [n / 10.0] is the double nearest
    to the tenth of [n]. *)
Lemma div_10_0_rounds (v : Z) :
  0 <= v < 65536 -> within_half_ulp_of_tenth v (div_10_0 v) = true.
Proof. exact (all_below_spec _ 65536 div_10_0_all_uint16 v). Qed.

Lemma decoded_coolant_temp (self : Decoder) (b0 b1 b2 b3 b4 b5 b6 b7 : byte) :
  byte_val b0 = 0x02 -> byte_val b5 = 0x00 ->
  decoded self (mkMessage 0x540 [b0; b1; b2; b3; b4; b5; b6; b7])
    "coolant_temp" = Some (VFloat (div_10_0 (be_uint [b6; b7]))).
Proof.
  intros E0 E5. unfold decoded. rewrite decode_0x540_trace, E0, E5, be_uint_2.
  reflexivity.
Qed.

(** C9: for a 0x540 frame with byte 0 = 0x02 and byte 5 = 0x00,
    [coolant_temp] is the big-endian unsigned 16-bit value of bytes 6-7
    divided by 10.0 in double precision, which is the double nearest to
    the exact tenth; bytes 0x01, 0x2C give 30.0. *)
Theorem coolant_temp_0x540 :
  forall (self : Decoder) (b0 b1 b2 b3 b4 b5 b6 b7 : byte),
    byte_val b0 = 0x02 -> byte_val b5 = 0x00 ->
    let msg := mkMessage 0x540 [b0; b1; b2; b3; b4; b5; b6; b7] in
    decoded self msg "coolant_temp" =
      Some (VFloat (PrimFloat.div (float_of_int (be_uint [b6; b7])) 10%float)) /\
    within_half_ulp_of_tenth (be_uint [b6; b7])
      (PrimFloat.div (float_of_int (be_uint [b6; b7])) 10%float) = true /\
    (b6 = x01 -> b7 = x2c ->
     decoded self msg "coolant_temp" = Some (VFloat 30%float)).
Proof.
  intros self b0 b1 b2 b3 b4 b5 b6 b7 E0 E5 msg.
  pose proof (decoded_coolant_temp self b0 b1 b2 b3 b4 b5 b6 b7 E0 E5) as D.
  fold msg in D. repeat split.
  - exact D.
  - apply div_10_0_rounds. rewrite be_uint_2.
    pose proof (byte_val_range b6). pose proof (byte_val_range b7). lia.
  - intros -> ->. exact D.
Qed.

Lemma coolant_temp_0x540_witness :
  decoded (mkDecoder false)
    (mkMessage 0x540 [x02; x0b; xb8; x00; x01; x00; x01; x2c])
    "coolant_temp" = Some (VFloat 30%float).
Proof.
  exact (proj2 (proj2 (coolant_temp_0x540 (mkDecoder false)
    x02 x0b xb8 x00 x01 x00 x01 x2c eq_refl eq_refl)) eq_refl eq_refl).
Defined.

(** *** The second assertion *)

(** C10: on a 0x540 frame with byte 0 = 0x02 and byte 5 other than 0x00
    the generator yields [rpm], [kickstand_up] and [kickstand_err] and
    raises [AssertionError] only at the fourth request; a frame whose
    byte 0 is wrong still gives a generator, and the exception comes with
    the first request, not before. *)
Theorem assertion_after_three_signals :
  forall (self : Decoder) (b0 b1 b2 b3 b4 b5 b6 b7 : byte),
    let g := decode self (mkMessage 0x540 [b0; b1; b2; b3; b4; b5; b6; b7]) in
    (byte_val b0 = 0x02 -> byte_val b5 <> 0x00 ->
     g = Yield (rpm_0x540 b1 b2)
        (Yield (kickstand_up_0x540 b4)
        (Yield (kickstand_err_0x540 b4) (Raise AssertionError))) /\
     take 3 g = ([rpm_0x540 b1 b2; kickstand_up_0x540 b4;
                  kickstand_err_0x540 b4], None, Raise AssertionError) /\
     take 4 g = ([rpm_0x540 b1 b2; kickstand_up_0x540 b4;
                  kickstand_err_0x540 b4], Some AssertionError, Ret tt)) /\
    (byte_val b0 <> 0x02 ->
     take 0 g = ([], None, g) /\ next g = (Raised AssertionError, Ret tt)).
Proof.
  intros self b0 b1 b2 b3 b4 b5 b6 b7 g. subst g.
  rewrite decode_0x540_trace. split.
  - intros E0 N5. apply Z.eqb_eq in E0. apply Z.eqb_neq in N5.
    rewrite E0, N5. repeat split.
  - intros N0. apply Z.eqb_neq in N0. rewrite N0. split; reflexivity.
Qed.

Lemma assertion_after_three_signals_witness :
  take 4 (decode (mkDecoder true)
            (mkMessage 0x540 [x02; x0b; xb8; x00; x81; x07; x01; x2c])) =
  ([mkSignal 0x540 "rpm" (VInt 3000);
    mkSignal 0x540 "kickstand_up" (VBool true);
    mkSignal 0x540 "kickstand_err" (VBool true)],
   Some AssertionError, Ret tt) /\
  next (decode (mkDecoder true)
          (mkMessage 0x540 [x03; x0b; xb8; x00; x81; x00; x01; x2c])) =
  (Raised AssertionError, Ret tt).
Proof.
  split.
  - refine (proj2 (proj2 (proj1 (assertion_after_three_signals (mkDecoder true)
      x02 x0b xb8 x00 x81 x07 x01 x2c) eq_refl _))).
    vm_compute. discriminate.
  - refine (proj2 (proj2 (assertion_after_three_signals (mkDecoder true)
      x03 x0b xb8 x00 x81 x00 x01 x2c) _)).
    vm_compute. discriminate.
Defined.

(** ** Signal names *)

Section Names.
Variable V : list string.

Lemma names_ok_ret {A : Type} (a : A) : names_ok V (Ret a).
Proof. constructor. Qed.

Lemma names_ok_raise {A : Type} (e : exn) : names_ok V (@Raise A e).
Proof. constructor. Qed.

Lemma names_ok_bind {A B : Type} (m : gen A) (f : A -> gen B) :
  names_ok V m -> (forall a, names_ok V (f a)) -> names_ok V (bind m f).
Proof.
  unfold names_ok. intros Hm Hf.
  induction m as [a|e|s k IH]; cbn [bind signals] in *.
  - apply Hf.
  - constructor.
  - inversion Hm; subst. constructor; auto.
Qed.

Lemma names_ok_getitem (data : list byte) (i : nat) :
  names_ok V (getitem data i).
Proof. unfold getitem. destruct (nth_error data i); constructor. Qed.

Lemma names_ok_unpack_H (buf : list byte) : names_ok V (unpack_H buf).
Proof.
  unfold unpack_H. destruct buf as [|? [|? [|? ?]]]; constructor.
Qed.

Lemma names_ok_assert (c : bool) : names_ok V (py_assert c).
Proof. destruct c; constructor. Qed.

Lemma names_ok_yield (i : Z) (key : string) (v : value) :
  mem key V = true -> names_ok V (yield i key v).
Proof. intros H. repeat constructor. exact H. Qed.
End Names.

Ltac names_step :=
  first
    [ apply names_ok_ret
    | apply names_ok_getitem
    | apply names_ok_unpack_H
    | apply names_ok_assert
    | apply names_ok_yield; reflexivity
    | apply names_ok_bind; [|intros ?]
    | match goal with
      | |- names_ok _ (if ?c then _ else _) => destruct c
      end ].

Lemma decode_names_ok (self : Decoder) (msg : Message) :
  names_ok emitted_vocabulary (decode self msg).
Proof.
  unfold decode. cbv zeta. repeat names_step.
Qed.

Lemma decode_0x12B_trace (self : Decoder) (b0 b1 b2 b3 b4 b5 b6 b7 : byte) :
  decode self (mkMessage 0x12B [b0; b1; b2; b3; b4; b5; b6; b7]) =
  Yield (mkSignal 0x12B "tilt?"
           (VInt (signed12 (Z.lor (Z.shiftl (byte_val b5) 4)
                                  (hi_nibble (byte_val b6))))))
 (Yield (mkSignal 0x12B "lean?"
           (VInt (signed12 (Z.lor (Z.shiftl (lo_nibble (byte_val b6)) 8)
                                  (byte_val b7)))))
    (if emit_unmapped self then
       yield 0x12B "unmapped" (VStr (join " " [
         "__"; "__"; format_02X (byte_val b2); format_02X (byte_val b3);
         "__"; "__"; "__"; "__"]))
     else Ret tt)).
Proof. destruct self as [[|]]; reflexivity. Qed.

(** C1, as stated, fails: the first signal of a 0x12B frame is named
    ["tilt?"], which the listed vocabulary does not hold, and no signal
    of that frame is named ["tilt"] or ["lean"]. *)
Lemma names_within_spec_vocabulary_fails :
  ~ names_within spec_vocabulary /\
  decoded (mkDecoder true) (mkMessage 0x12B zero_payload) "tilt" = None /\
  decoded (mkDecoder true) (mkMessage 0x12B zero_payload) "lean" = None.
Proof.
  split; [|split; reflexivity].
  intros H.
  specialize (H (mkDecoder false) (mkMessage 0x12B zero_payload)
                (mkSignal 0x12B "tilt?" (VInt 0))).
  assert (E : mem "tilt?" spec_vocabulary = true).
  { apply H. left. reflexivity. }
  vm_compute in E. discriminate E.
Qed.

(** C1, amended: every signal that [decode] yields, for every frame and
    both settings of [emit_unmapped], also before an exception, has its
    name among "rpm", "throttle", "kill_switch", "gear", "clutch_in",
    "tilt?", "lean?", "coolant_temp", "kickstand_up", "kickstand_err",
    "requested_throttle_map", "throttle_map", "unmapped"; the 0x12B frame
    yields the signals named "tilt?" and "lean?". *)
Theorem names_within_emitted_vocabulary :
  names_within emitted_vocabulary /\
  (forall (self : Decoder) (b0 b1 b2 b3 b4 b5 b6 b7 : byte),
     let msg := mkMessage 0x12B [b0; b1; b2; b3; b4; b5; b6; b7] in
     decoded self msg "tilt?" =
       Some (VInt (signed12 (Z.lor (Z.shiftl (byte_val b5) 4)
                                   (hi_nibble (byte_val b6))))) /\
     decoded self msg "lean?" =
       Some (VInt (signed12 (Z.lor (Z.shiftl (lo_nibble (byte_val b6)) 8)
                                   (byte_val b7))))).
Proof.
  split.
  - intros self msg s Hin.
    pose proof (decode_names_ok self msg) as H. unfold names_ok in H.
    rewrite Forall_forall in H. now apply H.
  - intros self b0 b1 b2 b3 b4 b5 b6 b7 msg. unfold decoded, msg.
    rewrite decode_0x12B_trace. split; reflexivity.
Qed.

Lemma names_within_emitted_vocabulary_witness :
  mem "lean?" emitted_vocabulary = true.
Proof.
  refine (proj1 names_within_emitted_vocabulary (mkDecoder true)
    (mkMessage 0x12B zero_payload) (mkSignal 0x12B "lean?" (VInt 0)) _).
  right. left. reflexivity.
Defined.

(** ** Short payloads *)

Lemma known_id_cases (i : Z) :
  known_id i = true ->
  i = 0x120 \/ i = 0x129 \/ i = 0x12A \/ i = 0x12B \/ i = 0x540.
Proof.
  unfold known_id. intros H.
  repeat (apply orb_prop in H; destruct H as [H|H]);
    apply Z.eqb_eq in H; auto 6.
Qed.

Lemma required_len_known (self : Decoder) (i : Z) (n : nat) :
  (n < required_len self i)%nat -> known_id i = true.
Proof.
  unfold required_len, known_id.
  destruct (i =? 0x120), (i =? 0x129), (i =? 0x12A), (i =? 0x12B),
    (i =? 0x540); cbn; try reflexivity; lia.
Qed.

Lemma short_payload_outcome (self : Decoder) (i : Z) (data : list byte) :
  (List.length data < required_len self i)%nat ->
  outcome (decode self (mkMessage i data)) <> None.
Proof.
  intros H.
  destruct (known_id_cases i (required_len_known self i _ H))
    as [-> | [-> | [-> | [-> | ->]]]];
    destruct self as [[|]]; destruct_payload data;
    cbn in H; try lia;
    run_handler; split_byte_tests; discriminate.
Qed.

(** The bound is tight: up to eight bytes, a payload that long never ends
    in an out-of-range subscript or a buffer of the wrong size. *)
Lemma full_payload_outcome (self : Decoder) (i : Z) (data : list byte) :
  (required_len self i <= List.length data <= 8)%nat ->
  outcome (decode self (mkMessage i data)) <> Some IndexError /\
  outcome (decode self (mkMessage i data)) <> Some StructError.
Proof.
  intros H.
  destruct (known_id i) eqn:K.
  - destruct (known_id_cases i K) as [-> | [-> | [-> | [-> | ->]]]];
      destruct self as [[|]]; destruct_payload data;
      cbn in H; try lia;
      run_handler; split_byte_tests; split; discriminate.
  - rewrite decode_unknown by assumption. split; discriminate.
Qed.

(** C2, as stated, fails: an empty 0x120 payload ends in [struct.error]
    and a two-byte one in [IndexError] after [rpm] was yielded, so short
    frames share no exception of their own; a one-byte 0x540 payload with
    a wrong byte 0 ends in the assertion failure; and a one-byte 0x129
    payload is decoded without any exception. *)
Lemma no_dedicated_length_error :
  ~ dedicated_length_error /\
  outcome (decode (mkDecoder false) (mkMessage 0x120 [])) = Some StructError /\
  decode (mkDecoder false) (mkMessage 0x120 [x1a; x2b]) =
    Yield (mkSignal 0x120 "rpm" (VInt 6699)) (Raise IndexError) /\
  decode (mkDecoder false) (mkMessage 0x540 [x03]) = Raise AssertionError /\
  decode (mkDecoder false) (mkMessage 0x129 [x18]) =
    Yield (mkSignal 0x129 "gear" (VInt 1))
      (Yield (mkSignal 0x129 "clutch_in" (VBool true)) (Ret tt)).
Proof.
  split; [|repeat split; reflexivity].
  intros (e & _ & H).
  pose proof (H (mkDecoder false) 0x120 [] eq_refl ltac:(cbn; lia)) as H0.
  pose proof (H (mkDecoder false) 0x120 [x1a; x2b] eq_refl ltac:(cbn; lia))
    as H2.
  vm_compute in H0, H2. congruence.
Qed.

(** C2, amended: a frame of a known identifier whose payload is shorter
    than the bytes its handler reads is not decoded silently: draining
    [decode] ends in an exception, after the signals that precede the
    failing access.  The exception is the generic [IndexError] or
    [struct.error], or, for 0x540 with a wrong constant byte, the
    assertion failure; none of them names the identifier. *)
Theorem short_payload_raises :
  forall (self : Decoder) (i : Z) (data : list byte),
    (List.length data < required_len self i)%nat ->
    exists e : exn,
      outcome (decode self (mkMessage i data)) = Some e /\
      (e = IndexError \/ e = StructError \/
       (e = AssertionError /\ i = 0x540 /\ bad_constant data)).
Proof.
  intros self i data H.
  pose proof (short_payload_outcome self i data H) as N.
  destruct (outcome (decode self (mkMessage i data))) as [e|] eqn:E;
    [|contradiction].
  exists e. split; [reflexivity|].
  destruct e; auto.
  right. right. split; [reflexivity|].
  exact (assertion_error_only_0x540 self (mkMessage i data) E).
Qed.

Lemma short_payload_raises_witness :
  exists e : exn,
    outcome (decode (mkDecoder true)
               (mkMessage 0x12A [x00; x40; x00; x00; x00; x00; x00])) =
      Some e /\
    (e = IndexError \/ e = StructError \/
     (e = AssertionError /\ 0x12A = 0x540 /\
      bad_constant [x00; x40; x00; x00; x00; x00; x00])).
Proof.
  apply (short_payload_raises (mkDecoder true) 0x12A
           [x00; x40; x00; x00; x00; x00; x00]).
  cbn. lia.
Defined.

(** ** The unmapped diagnostic *)

Lemma format_02X_all_bytes :
  all_below (fun n => String.eqb (format_02X n) (two_hex n)) 256 = true.
Proof. vm_compute. reflexivity. Qed.

Lemma format_02X_two_hex (n : Z) :
  0 <= n < 256 -> format_02X n = two_hex n.
Proof.
  intros H. apply String.eqb_eq.
  exact (all_below_spec _ 256 format_02X_all_bytes n H).
Qed.

Lemma land_byte_range (b : byte) (m : Z) :
  0 <= Z.land (byte_val b) m < 256.
Proof.
  pose proof (byte_val_range b) as Hb.
  rewrite <- (Z.mod_small (byte_val b) (2 ^ 8)) by (change (2 ^ 8) with 256; lia).
  rewrite <- Z.land_ones by lia.
  rewrite <- Z.land_assoc, (Z.land_comm (Z.ones 8) m), Z.land_assoc.
  rewrite Z.land_ones by lia. change (2 ^ 8) with 256.
  apply Z.mod_pos_bound. lia.
Qed.

Lemma land_byte_FF (b : byte) : Z.land (byte_val b) 0xFF = byte_val b.
Proof.
  pose proof (byte_val_range b).
  change 0xFF with (Z.ones 8). rewrite Z.land_ones by lia.
  apply Z.mod_small. change (2 ^ 8) with 256. lia.
Qed.

Lemma masked_cell (b : byte) (m : Z) :
  format_02X (Z.land (byte_val b) m) = two_hex (Z.land (byte_val b) m).
Proof. apply format_02X_two_hex, land_byte_range. Qed.

Lemma plain_cell (b : byte) :
  format_02X (byte_val b) = two_hex (Z.land (byte_val b) 0xFF).
Proof.
  rewrite land_byte_FF. apply format_02X_two_hex, byte_val_range.
Qed.

Lemma decode_0x129_trace (self : Decoder) (b0 b1 b2 b3 b4 b5 b6 b7 : byte) :
  decode self (mkMessage 0x129 [b0; b1; b2; b3; b4; b5; b6; b7]) =
  Yield (mkSignal 0x129 "gear" (VInt (hi_nibble (byte_val b0))))
 (Yield (mkSignal 0x129 "clutch_in"
           (VBool (Z.shiftr (Z.land (byte_val b0) 0x08) 3 =? 1)))
    (if emit_unmapped self then
       yield 0x129 "unmapped" (VStr (join " " [
         "__"; format_02X (byte_val b1); format_02X (byte_val b2);
         format_02X (byte_val b3); format_02X (byte_val b4);
         format_02X (byte_val b5); format_02X (byte_val b6); "__"]))
     else Ret tt)).
Proof. destruct self as [[|]]; reflexivity. Qed.

Lemma decode_0x12A_trace (self : Decoder) (b0 b1 b2 b3 b4 b5 b6 b7 : byte) :
  decode self (mkMessage 0x12A [b0; b1; b2; b3; b4; b5; b6; b7]) =
  Yield (mkSignal 0x12A "requested_throttle_map"
           (VInt (Z.shiftr (Z.land (byte_val b1) 0x40) 6)))
    (if emit_unmapped self then
       yield 0x12A "unmapped" (VStr (join " " [
         format_02X (byte_val b0);
         format_02X (Z.land (byte_val b1) 0xBF);
         format_02X (byte_val b2); format_02X (byte_val b3);
         format_02X (byte_val b4); format_02X (byte_val b5);
         format_02X (byte_val b6); format_02X (byte_val b7)]))
     else Ret tt).
Proof. destruct self as [[|]]; reflexivity. Qed.

(** C3, as stated, fails: byte 7 of a 0x120 frame, which no named field
    reads, is rendered as the placeholder, and byte 0 of a 0x129 frame,
    of which [gear] and [clutch_in] read five bits, is rendered as the
    placeholder and not as masked hex. *)
Lemma unmapped_not_as_specified :
  ~ unmapped_as_specified /\
  decoded (mkDecoder true) (mkMessage 0x120 zero_payload) "unmapped" =
    Some (VStr "__ __ __ 00 00 00 00 __") /\
  spec_unmapped 0x120 zero_payload = "__ __ __ 00 00 00 00 00" /\
  decoded (mkDecoder true) (mkMessage 0x129 zero_payload) "unmapped" =
    Some (VStr "__ 00 00 00 00 00 00 __") /\
  spec_unmapped 0x129 zero_payload = "00 00 00 00 00 00 00 00".
Proof.
  split; [|repeat split; reflexivity].
  intros H.
  specialize (H 0x120 x00 x00 x00 x00 x00 x00 x00 x00
                (VStr "__ __ __ 00 00 00 00 __") eq_refl eq_refl).
  vm_compute in H. discriminate H.
Qed.

Ltac solve_cells :=
  cbn -[format_02X two_hex Z.land Z.lxor byte_val];
  repeat split;
  first [ reflexivity | apply masked_cell | apply plain_cell ].

Ltac unmapped_case L :=
  split; [discriminate|];
  let v := fresh "v" in
  let E := fresh "E" in
  intros v E;
  change (Some (VStr (join " " L)) = Some v) in E;
  injection E as <-;
  exists L; split; [reflexivity | solve_cells].

(** C3, amended: with [emit_unmapped] set, an 8-byte frame of a known
    identifier that raises no exception yields an "unmapped" signal; its
    string is eight cells joined by single spaces, in byte order.  A cell
    is the placeholder "__" for a byte that named fields read whole and
    for a byte held to be constant or a counter (byte 7 of 0x120 and
    0x129, bytes 0, 1, 4 of 0x12B, bytes 0, 5 of 0x540); it is two
    uppercase hex digits of the byte with the bits read by named fields
    cleared for every other byte, except byte 0 of 0x129, of which
    nothing is said. *)
Theorem unmapped_layout :
  forall (i : Z) (b0 b1 b2 b3 b4 b5 b6 b7 : byte),
    let data := [b0; b1; b2; b3; b4; b5; b6; b7] in
    let msg := mkMessage i data in
    known_id i = true ->
    (outcome (decode (mkDecoder true) msg) = None ->
     decoded (mkDecoder true) msg "unmapped" <> None) /\
    (forall v : value,
       decoded (mkDecoder true) msg "unmapped" = Some v ->
       exists cells : list string,
         v = VStr (join " " cells) /\ cells_ok i 0 data cells).
Proof.
  intros i b0 b1 b2 b3 b4 b5 b6 b7 data msg K. subst msg data.
  unfold decoded.
  destruct (known_id_cases i K) as [-> | [-> | [-> | [-> | ->]]]].
  - rewrite decode_0x120_trace.
    unmapped_case
      ["__"; "__"; "__";
       format_02X (Z.land (byte_val b3) (Z.lxor 0x10 0xFF));
       format_02X (Z.land (byte_val b4) (Z.lxor 0x01 0xFF));
       format_02X (byte_val b5); format_02X (byte_val b6); "__"].
  - rewrite decode_0x129_trace.
    unmapped_case
      ["__"; format_02X (byte_val b1); format_02X (byte_val b2);
       format_02X (byte_val b3); format_02X (byte_val b4);
       format_02X (byte_val b5); format_02X (byte_val b6); "__"].
  - rewrite decode_0x12A_trace.
    unmapped_case
      [format_02X (byte_val b0);
       format_02X (Z.land (byte_val b1) (Z.lxor 0x40 0xFF));
       format_02X (byte_val b2); format_02X (byte_val b3);
       format_02X (byte_val b4); format_02X (byte_val b5);
       format_02X (byte_val b6); format_02X (byte_val b7)].
  - rewrite decode_0x12B_trace.
    unmapped_case
      ["__"; "__"; format_02X (byte_val b2); format_02X (byte_val b3);
       "__"; "__"; "__"; "__"].
  - rewrite decode_0x540_trace.
    destruct (byte_val b0 =? 2); [|split; discriminate].
    destruct (byte_val b5 =? 0); [|split; discriminate].
    unmapped_case
      ["__"; "__"; "__"; format_02X (byte_val b3);
       format_02X (Z.land (byte_val b4) (Z.lxor 0x81 0xFF));
       "__"; "__"; "__"].
Qed.

Lemma unmapped_layout_witness :
  exists cells : list string,
    VStr "FF BF FF FF FF FF FF FF" = VStr (join " " cells) /\
    cells_ok 0x12A 0 [xff; xff; xff; xff; xff; xff; xff; xff] cells.
Proof.
  exact (proj2 (unmapped_layout 0x12A xff xff xff xff xff xff xff xff eq_refl)
           (VStr "FF BF FF FF FF FF FF FF") eq_refl).
Defined.

(** The handler of 0x12A renders its diagnostic as specified. *)
Lemma unmapped_0x12A_as_specified (b0 b1 b2 b3 b4 b5 b6 b7 : byte) :
  decoded (mkDecoder true)
    (mkMessage 0x12A [b0; b1; b2; b3; b4; b5; b6; b7]) "unmapped" =
  Some (VStr (spec_unmapped 0x12A [b0; b1; b2; b3; b4; b5; b6; b7])).
Proof.
  unfold decoded. rewrite decode_0x12A_trace.
  change (Some (VStr (join " "
    [format_02X (byte_val b0);
     format_02X (Z.land (byte_val b1) (Z.lxor 0x40 0xFF));
     format_02X (byte_val b2); format_02X (byte_val b3);
     format_02X (byte_val b4); format_02X (byte_val b5);
     format_02X (byte_val b6); format_02X (byte_val b7)])) =
   Some (VStr (join " "
    [two_hex (Z.land (byte_val b0) 0xFF);
     two_hex (Z.land (byte_val b1) (Z.lxor 0x40 0xFF));
     two_hex (Z.land (byte_val b2) 0xFF); two_hex (Z.land (byte_val b3) 0xFF);
     two_hex (Z.land (byte_val b4) 0xFF); two_hex (Z.land (byte_val b5) 0xFF);
     two_hex (Z.land (byte_val b6) 0xFF); two_hex (Z.land (byte_val b7) 0xFF)]))).
  now rewrite !plain_cell, masked_cell.
Qed.

(** What the handler of 0x129 does with byte 0. *)
Lemma unmapped_0x129_byte0 (b0 b1 b2 b3 b4 b5 b6 b7 : byte) :
  exists rest : string,
    decoded (mkDecoder true)
      (mkMessage 0x129 [b0; b1; b2; b3; b4; b5; b6; b7]) "unmapped" =
    Some (VStr (String.append "__ " rest)).
Proof.
  unfold decoded. rewrite decode_0x129_trace. eexists. reflexivity.
Qed.

(** * Further properties of the decoder *)

(** ** Nibbles *)

Lemma lo_nibble_mod (b : Z) : lo_nibble b = b mod 16.
Proof.
  unfold lo_nibble. change 0x0F with (Z.ones 4).
  rewrite Z.land_ones by lia. reflexivity.
Qed.

Lemma hi_nibble_div (b : Z) : hi_nibble b = (b / 16) mod 16.
Proof.
  unfold hi_nibble. change 0x0F with (Z.ones 4).
  rewrite Z.land_ones, Z.shiftr_div_pow2 by lia. reflexivity.
Qed.

(** X1: [hi_nibble] and [lo_nibble] split the low eight bits of any
    integer into two values in 0..15, high half first; a byte is put
    together again from its two nibbles. *)
Theorem nibbles_split :
  forall b : Z,
    0 <= lo_nibble b <= 15 /\ 0 <= hi_nibble b <= 15 /\
    16 * hi_nibble b + lo_nibble b = b mod 256 /\
    (0 <= b < 256 -> 16 * hi_nibble b + lo_nibble b = b).
Proof.
  intros b. rewrite lo_nibble_mod, hi_nibble_div.
  repeat split; Z.div_mod_to_equations; lia.
Qed.

Lemma nibbles_split_witness :
  0 <= 0xA7 < 256 /\ 16 * hi_nibble 0xA7 + lo_nibble 0xA7 = 0xA7.
Proof.
  split; [lia|].
  apply (proj2 (proj2 (proj2 (nibbles_split 0xA7)))). lia.
Defined.

(** ** signed12 on every integer *)

Lemma signed12_closed_form (v : Z) :
  signed12 v = (v + 2048) mod 4096 - 2048.
Proof.
  rewrite signed12_bits.
  pose proof (Z.testbit_spec' v 11 ltac:(lia)) as B.
  change (2 ^ 11) with 2048 in B.
  destruct (Z.testbit v 11); cbn [Z.b2z] in B;
    Z.div_mod_to_equations; lia.
Qed.

(** X2: on every integer, also one outside 0..4095 or negative,
    [signed12] reads only the low twelve bits: the result is
    [(v + 2048) mod 4096 - 2048], so it lies in [-2048, 2047], is
    congruent to [v] modulo 4096, and is unchanged when a multiple of
    4096 is added to [v]. *)
Theorem signed12_any_integer :
  forall v k : Z,
    signed12 v = (v + 2048) mod 4096 - 2048 /\
    -2048 <= signed12 v <= 2047 /\
    signed12 v mod 4096 = v mod 4096 /\
    signed12 (v + 4096 * k) = signed12 v.
Proof.
  intros v k. rewrite !signed12_closed_form. repeat split.
  - Z.div_mod_to_equations; lia.
  - Z.div_mod_to_equations; lia.
  - Z.div_mod_to_equations; lia.
  - replace (v + 4096 * k + 2048) with (v + 2048 + k * 4096) by lia.
    rewrite Z.mod_add by lia. reflexivity.
Qed.

(** X3: [signed12] undoes the 12-bit two's complement encoding: for
    every [x] in [-2048, 2047] it maps [x mod 4096] back to [x]; hence
    two 12-bit values with the same result are equal. *)
Theorem signed12_round_trip :
  (forall x : Z, -2048 <= x <= 2047 -> signed12 (x mod 4096) = x) /\
  (forall v w : Z, 0 <= v <= 4095 -> 0 <= w <= 4095 ->
     signed12 v = signed12 w -> v = w).
Proof.
  split.
  - intros x Hx. rewrite signed12_closed_form.
    Z.div_mod_to_equations; lia.
  - intros v w Hv Hw. rewrite !signed12_closed_form.
    intros E. Z.div_mod_to_equations; lia.
Qed.

Lemma signed12_round_trip_witness :
  signed12 ((-1234) mod 4096) = -1234 /\
  (signed12 0x9A5 = signed12 0x9A5 -> 0x9A5 = 0x9A5).
Proof.
  split.
  - apply (proj1 signed12_round_trip). lia.
  - apply (proj2 signed12_round_trip); lia.
Defined.

(** ** Identifier 0x12B *)

Lemma lor_shiftl_add (hi lo n : Z) :
  0 <= n -> 0 <= lo < 2 ^ n -> Z.lor (Z.shiftl hi n) lo = hi * 2 ^ n + lo.
Proof.
  intros Hn Hlo.
  pose proof (Z.add_lor_land (Z.shiftl hi n) lo) as H.
  assert (L : Z.land (Z.shiftl hi n) lo = 0).
  { apply Z.bits_inj'. intros m Hm.
    rewrite Z.land_spec, Z.bits_0.
    destruct (Z.ltb_spec m n) as [Hlt|Hge].
    - now rewrite Z.shiftl_spec_low.
    - rewrite <- (Z.mod_small lo (2 ^ n)) by assumption.
      rewrite Z.mod_pow2_bits_high by lia. apply andb_false_r. }
  rewrite L, Z.shiftl_mul_pow2 in H by assumption.
  rewrite Z.shiftl_mul_pow2 by assumption. lia.
Qed.

Lemma tilt_raw (b5 b6 : byte) :
  Z.lor (Z.shiftl (byte_val b5) 4) (hi_nibble (byte_val b6)) =
  16 * byte_val b5 + byte_val b6 / 16.
Proof.
  pose proof (byte_val_range b6).
  rewrite lor_shiftl_add; rewrite ?hi_nibble_div; change (2 ^ 4) with 16;
    Z.div_mod_to_equations; lia.
Qed.

Lemma lean_raw (b6 b7 : byte) :
  Z.lor (Z.shiftl (lo_nibble (byte_val b6)) 8) (byte_val b7) =
  256 * (byte_val b6 mod 16) + byte_val b7.
Proof.
  pose proof (byte_val_range b7).
  rewrite lor_shiftl_add; rewrite ?lo_nibble_mod; change (2 ^ 8) with 256;
    lia.
Qed.

(** X4: an 8-byte 0x12B frame yields [tilt?] and [lean?] as integers in
    [-2048, 2047]: [tilt?] is the signed reading of byte 5 followed by
    the high nibble of byte 6, [lean?] that of the low nibble of byte 6
    followed by byte 7.  Their 12-bit patterns side by side are the
    big-endian value of bytes 5-7, so the two signals use each of those
    24 bits once; [tilt?] is negative exactly when the top bit of byte 5
    is set, [lean?] when bit 3 of byte 6 is. *)
Theorem tilt_lean_0x12B :
  forall (self : Decoder) (b0 b1 b2 b3 b4 b5 b6 b7 : byte),
    let msg := mkMessage 0x12B [b0; b1; b2; b3; b4; b5; b6; b7] in
    exists t l : Z,
      decoded self msg "tilt?" = Some (VInt t) /\
      decoded self msg "lean?" = Some (VInt l) /\
      t = signed12 (16 * byte_val b5 + byte_val b6 / 16) /\
      l = signed12 (256 * (byte_val b6 mod 16) + byte_val b7) /\
      -2048 <= t <= 2047 /\ -2048 <= l <= 2047 /\
      4096 * (t mod 4096) + l mod 4096 = be_uint [b5; b6; b7] /\
      (t < 0 <-> 128 <= byte_val b5) /\
      (l < 0 <-> 8 <= byte_val b6 mod 16).
Proof.
  intros self b0 b1 b2 b3 b4 b5 b6 b7 msg. unfold decoded, msg.
  rewrite decode_0x12B_trace, tilt_raw, lean_raw.
  eexists. eexists. split; [reflexivity|]. split; [reflexivity|].
  split; [reflexivity|]. split; [reflexivity|].
  pose proof (byte_val_range b5). pose proof (byte_val_range b6).
  pose proof (byte_val_range b7).
  rewrite !signed12_closed_form.
  unfold be_uint. cbn [fold_left].
  repeat split; Z.div_mod_to_equations; lia.
Qed.

(** ** Identifiers 0x129, 0x12A and 0x540 *)

Lemma eq_1_b2z (x : bool) : (Z.b2z x =? 1) = x.
Proof. destruct x; reflexivity. Qed.

(** X5: an 8-byte 0x129 frame yields [gear], the high nibble of byte 0
    as an integer in 0..15, then [clutch_in], the boolean of bit 3 of
    byte 0; bits 0-2 of byte 0 and the other bytes do not enter either
    value. *)
Theorem gear_clutch_0x129 :
  forall (self : Decoder) (b0 b1 b2 b3 b4 b5 b6 b7 : byte),
    let msg := mkMessage 0x129 [b0; b1; b2; b3; b4; b5; b6; b7] in
    decoded self msg "gear" = Some (VInt (byte_val b0 / 16)) /\
    0 <= byte_val b0 / 16 <= 15 /\
    decoded self msg "clutch_in" = Some (VBool (Z.testbit (byte_val b0) 3)) /\
    exists tail : list Signal,
      signals (decode self msg) =
      mkSignal 0x129 "gear" (VInt (byte_val b0 / 16)) ::
      mkSignal 0x129 "clutch_in" (VBool (Z.testbit (byte_val b0) 3)) :: tail.
Proof.
  intros self b0 b1 b2 b3 b4 b5 b6 b7 msg. unfold decoded, msg.
  rewrite decode_0x129_trace.
  pose proof (byte_val_range b0) as R.
  assert (G : hi_nibble (byte_val b0) = byte_val b0 / 16).
  { rewrite hi_nibble_div. apply Z.mod_small.
    Z.div_mod_to_equations; lia. }
  assert (C : (Z.shiftr (Z.land (byte_val b0) 0x08) 3 =? 1) =
              Z.testbit (byte_val b0) 3).
  { change 0x08 with (2 ^ 3). rewrite extract_bit by lia. apply eq_1_b2z. }
  rewrite G, C. repeat split; try (Z.div_mod_to_equations; lia).
  eexists. reflexivity.
Qed.

(** X6: an 8-byte 0x12A frame yields first
    [requested_throttle_map], which is bit 6 of byte 1 as 0 or 1, whatever
    the other bits of the payload are. *)
Theorem requested_throttle_map_0x12A :
  forall (self : Decoder) (b0 b1 b2 b3 b4 b5 b6 b7 : byte),
    let msg := mkMessage 0x12A [b0; b1; b2; b3; b4; b5; b6; b7] in
    decoded self msg "requested_throttle_map" =
      Some (VInt (Z.b2z (Z.testbit (byte_val b1) 6))) /\
    fst (next (decode self msg)) =
      Yielded (mkSignal 0x12A "requested_throttle_map"
                 (VInt (Z.b2z (Z.testbit (byte_val b1) 6)))).
Proof.
  intros self b0 b1 b2 b3 b4 b5 b6 b7 msg. unfold decoded, msg.
  rewrite decode_0x12A_trace.
  change 0x40 with (2 ^ 6). rewrite extract_bit by lia.
  split; reflexivity.
Qed.

(** X7: an 8-byte 0x540 frame with byte 0 = 0x02 and byte 5 = 0x00 runs
    to the end without an exception; [rpm] is the big-endian unsigned
    16-bit value of bytes 1-2, [kickstand_up] the boolean of bit 0 of
    byte 4 and [kickstand_err] the boolean of bit 7 of byte 4. *)
Theorem valid_frame_0x540 :
  forall (self : Decoder) (b0 b1 b2 b3 b4 b5 b6 b7 : byte),
    byte_val b0 = 0x02 -> byte_val b5 = 0x00 ->
    let msg := mkMessage 0x540 [b0; b1; b2; b3; b4; b5; b6; b7] in
    outcome (decode self msg) = None /\
    decoded self msg "rpm" = Some (VInt (be_uint [b1; b2])) /\
    0 <= be_uint [b1; b2] < 65536 /\
    decoded self msg "kickstand_up" =
      Some (VBool (Z.testbit (byte_val b4) 0)) /\
    decoded self msg "kickstand_err" =
      Some (VBool (Z.testbit (byte_val b4) 7)).
Proof.
  intros self b0 b1 b2 b3 b4 b5 b6 b7 E0 E5 msg. unfold decoded, msg.
  rewrite decode_0x540_trace, E0, E5.
  unfold rpm_0x540, kickstand_up_0x540, kickstand_err_0x540.
  assert (U : (Z.land (byte_val b4) 0x01 =? 1) = Z.testbit (byte_val b4) 0).
  { rewrite throttle_map_bit. apply eq_1_b2z. }
  assert (V : (Z.shiftr (Z.land (byte_val b4) 0x80) 7 =? 1) =
              Z.testbit (byte_val b4) 7).
  { change 0x80 with (2 ^ 7). rewrite extract_bit by lia. apply eq_1_b2z. }
  rewrite U, V, be_uint_2.
  pose proof (byte_val_range b1). pose proof (byte_val_range b2).
  repeat split; try lia.
  destruct self as [[|]]; reflexivity.
Qed.

Lemma valid_frame_0x540_witness :
  decoded (mkDecoder false)
    (mkMessage 0x540 [x02; x0b; xb8; x00; x81; x00; x01; x2c]) "rpm" =
    Some (VInt (be_uint [x0b; xb8])).
Proof.
  exact (proj1 (proj2 (valid_frame_0x540 (mkDecoder false)
    x02 x0b xb8 x00 x81 x00 x01 x2c eq_refl eq_refl))).
Defined.

(** ** Invariants of every yielded signal *)

Section Invariant.
Variable P : Signal -> Prop.

Lemma all_signals_ret {A : Type} (a : A) : all_signals P (Ret a).
Proof. constructor. Qed.

Lemma all_signals_bind {A B : Type} (m : gen A) (f : A -> gen B) :
  all_signals P m -> (forall a, all_signals P (f a)) ->
  all_signals P (bind m f).
Proof.
  unfold all_signals. intros Hm Hf.
  induction m as [a|e|s k IH]; cbn [bind signals] in *.
  - apply Hf.
  - constructor.
  - inversion Hm; subst. constructor; auto.
Qed.

Lemma all_signals_getitem (data : list byte) (i : nat) :
  all_signals P (getitem data i).
Proof. unfold getitem. destruct (nth_error data i); constructor. Qed.

Lemma all_signals_unpack_H (buf : list byte) : all_signals P (unpack_H buf).
Proof.
  unfold unpack_H. destruct buf as [|? [|? [|? ?]]]; constructor.
Qed.

Lemma all_signals_assert (c : bool) : all_signals P (py_assert c).
Proof. destruct c; constructor. Qed.

Lemma all_signals_yield (i : Z) (key : string) (v : value) :
  P (mkSignal i key v) -> all_signals P (yield i key v).
Proof. intros H. repeat constructor. exact H. Qed.
End Invariant.

Ltac invariant_step tac :=
  first
    [ apply all_signals_ret
    | apply all_signals_getitem
    | apply all_signals_unpack_H
    | apply all_signals_assert
    | apply all_signals_yield; tac
    | apply all_signals_bind; [|intros ?]
    | match goal with
      | |- all_signals _ (if ?c then _ else _) => destruct c
      end ].

(** X8: every signal that [decode] yields, for every identifier, payload
    of any length and setting of [emit_unmapped], carries the identifier
    of the message it was decoded from. *)
Theorem signal_id_is_message_id :
  forall (self : Decoder) (msg : Message) (s : Signal),
    In s (signals (decode self msg)) -> sig_id s = msg_id msg.
Proof.
  intros self msg s Hin.
  assert (H : all_signals (fun s => sig_id s = msg_id msg) (decode self msg)).
  { unfold decode. cbv zeta. repeat invariant_step reflexivity. }
  unfold all_signals in H. rewrite Forall_forall in H. now apply H.
Qed.

Lemma signal_id_is_message_id_witness :
  sig_id (mkSignal 0x129 "gear" (VInt 1)) = 0x129.
Proof.
  refine (signal_id_is_message_id (mkDecoder false)
            (mkMessage 0x129 [x18]) (mkSignal 0x129 "gear" (VInt 1)) _).
  left. reflexivity.
Defined.

(** X9: a decoder built without the [emit_unmapped] keyword, or with it
    false, yields no signal named "unmapped", for any frame. *)
Theorem default_decoder_no_unmapped :
  forall (msg : Message) (s : Signal),
    (In s (signals (decode (Decoder_init None) msg)) ->
     sig_name s <> "unmapped") /\
    (In s (signals (decode (Decoder_init (Some false)) msg)) ->
     sig_name s <> "unmapped").
Proof.
  intros msg s.
  assert (H : all_signals (fun s => sig_name s <> "unmapped")
                (decode (mkDecoder false) msg)).
  { unfold decode. cbn [emit_unmapped]. cbv zeta.
    repeat invariant_step discriminate. }
  unfold all_signals in H. rewrite Forall_forall in H.
  split; intros Hin; now apply H.
Qed.

Lemma default_decoder_no_unmapped_witness :
  sig_name (mkSignal 0x12A "requested_throttle_map" (VInt 1)) <> "unmapped".
Proof.
  refine (proj1 (default_decoder_no_unmapped
            (Message_init 0x12A [x00; x40])
            (mkSignal 0x12A "requested_throttle_map" (VInt 1))) _).
  left. reflexivity.
Defined.

(** ** The effect of emit_unmapped *)

Ltac appended_tail :=
  eexists; split; [reflexivity|]; split;
  [ first [ left; reflexivity | right; eexists; reflexivity ]
  | let e := fresh "e" in
    let E := fresh "E" in
    intros e E;
    first [ discriminate E | split; [reflexivity | exact E] ] ].

(** X10: switching [emit_unmapped] on changes nothing of what a frame
    yields except that at most one signal, named "unmapped" and holding a
    string, is appended; when the frame already ends in an exception
    without it, nothing is appended and the exception is the same. *)
Theorem emit_unmapped_only_appends :
  forall msg : Message,
    exists tail : list Signal,
      signals (decode (mkDecoder true) msg) =
        (signals (decode (mkDecoder false) msg) ++ tail)%list /\
      (tail = [] \/
       exists s : string, tail = [mkSignal (msg_id msg) "unmapped" (VStr s)]) /\
      (forall e : exn,
         outcome (decode (mkDecoder false) msg) = Some e ->
         tail = [] /\ outcome (decode (mkDecoder true) msg) = Some e).
Proof.
  intros [i data]. cbn [msg_id].
  destruct (known_id i) eqn:K.
  - destruct (known_id_cases i K) as [-> | [-> | [-> | [-> | ->]]]];
      destruct_payload data; run_handler; split_byte_tests;
      cbn [app]; appended_tail.
  - rewrite !decode_unknown by assumption. exists []. repeat split; auto.
Qed.

Lemma emit_unmapped_only_appends_witness :
  exists tail : list Signal,
    signals (decode (mkDecoder true) (mkMessage 0x129 [x18])) =
      (signals (decode (mkDecoder false) (mkMessage 0x129 [x18])) ++ tail)%list /\
    (tail = [] \/
     exists s : string, tail = [mkSignal 0x129 "unmapped" (VStr s)]) /\
    (forall e : exn,
       outcome (decode (mkDecoder false) (mkMessage 0x129 [x18])) = Some e ->
       tail = [] /\
       outcome (decode (mkDecoder true) (mkMessage 0x129 [x18])) = Some e).
Proof.
  exact (emit_unmapped_only_appends (mkMessage 0x129 [x18])).
Defined.

(** ** Payloads longer than eight bytes *)

(** X11: the handlers of 0x120, 0x129, 0x12A and 0x12B never look past
    byte 7: bytes appended to an 8-byte payload change nothing.  The
    handler of 0x540 reads [data[6:]] to the end, so with the constant
    bytes right and any byte appended it yields [rpm], [kickstand_up]
    and [kickstand_err] and then ends in [struct.error]. *)
Theorem bytes_past_eight :
  forall (self : Decoder) (i : Z) (b0 b1 b2 b3 b4 b5 b6 b7 : byte)
         (more : list byte),
    let data := [b0; b1; b2; b3; b4; b5; b6; b7] in
    (i = 0x120 \/ i = 0x129 \/ i = 0x12A \/ i = 0x12B ->
     decode self (mkMessage i (data ++ more)%list) =
     decode self (mkMessage i data)) /\
    (more <> [] -> byte_val b0 = 0x02 -> byte_val b5 = 0x00 ->
     decode self (mkMessage 0x540 (data ++ more)%list) =
     Yield (rpm_0x540 b1 b2)
    (Yield (kickstand_up_0x540 b4)
    (Yield (kickstand_err_0x540 b4) (Raise StructError)))).
Proof.
  intros self i b0 b1 b2 b3 b4 b5 b6 b7 more data. subst data. split.
  - intros [-> | [-> | [-> | ->]]]; cbn [app]; run_handler; reflexivity.
  - intros N E0 E5. destruct more as [|m more]; [contradiction|].
    apply Z.eqb_eq in E0, E5.
    cbn [app]. run_handler. rewrite E0, E5. reflexivity.
Qed.

Lemma bytes_past_eight_witness :
  decode (mkDecoder true)
    (mkMessage 0x12A [x00; x40; x00; x00; x00; x00; x00; x00; xaa; xbb]) =
  decode (mkDecoder true)
    (mkMessage 0x12A [x00; x40; x00; x00; x00; x00; x00; x00]) /\
  outcome (decode (mkDecoder false)
    (mkMessage 0x540 [x02; x0b; xb8; x00; x81; x00; x01; x2c; xaa])) =
  Some StructError.
Proof.
  split.
  - apply (proj1 (bytes_past_eight (mkDecoder true) 0x12A
      x00 x40 x00 x00 x00 x00 x00 x00 [xaa; xbb])). auto.
  - refine (f_equal outcome (proj2 (bytes_past_eight (mkDecoder false) 0x540
      x02 x0b xb8 x00 x81 x00 x01 x2c [xaa]) _ eq_refl eq_refl)).
    discriminate.
Defined.

(** ** Complete frames *)

Lemma named_signals_unknown (i : Z) : known_id i = false -> named_signals i = 0%nat.
Proof.
  unfold known_id, named_signals. intros H.
  repeat (apply orb_false_elim in H; destruct H as [H ?]).
  repeat match goal with E : (i =? _) = false |- _ => rewrite E; clear E end.
  reflexivity.
Qed.

(** X12: an 8-byte frame ends in an exception only for identifier 0x540
    with byte 0 other than 0x02 or byte 5 other than 0x00.  When it ends
    without one it has yielded the named signals of its identifier (4,
    2, 1, 2, 4 for 0x120, 0x129, 0x12A, 0x12B, 0x540, none for any other)
    and, with [emit_unmapped] and a known identifier, one more. *)
Theorem full_frame_signal_count :
  forall (self : Decoder) (i : Z) (b0 b1 b2 b3 b4 b5 b6 b7 : byte),
    let g := decode self (mkMessage i [b0; b1; b2; b3; b4; b5; b6; b7]) in
    (outcome g = None <->
     (i = 0x540 -> byte_val b0 = 0x02 /\ byte_val b5 = 0x00)) /\
    (outcome g = None ->
     List.length (signals g) =
     (named_signals i +
      (if known_id i && emit_unmapped self then 1 else 0))%nat).
Proof.
  intros self i b0 b1 b2 b3 b4 b5 b6 b7 g. subst g.
  destruct (known_id i) eqn:K.
  - destruct (known_id_cases i K) as [-> | [-> | [-> | [-> | ->]]]];
      destruct self as [[|]]; run_handler; split_byte_tests.
    all: split; [split|].
    all: intros H.
    all: first [ discriminate H
               | reflexivity
               | intros; first [ lia | split; assumption ]
               | destruct (H eq_refl) as [? ?]; contradiction ].
  - rewrite decode_unknown by assumption.
    rewrite named_signals_unknown by assumption.
    split; [|reflexivity]. split; [|reflexivity].
    intros _ ->. discriminate K.
Qed.

Lemma full_frame_signal_count_witness :
  List.length (signals (decode (mkDecoder true)
    (mkMessage 0x540 [x02; x0b; xb8; x00; x81; x00; x01; x2c]))) = 5%nat.
Proof.
  exact (proj2 (full_frame_signal_count (mkDecoder true) 0x540
    x02 x0b xb8 x00 x81 x00 x01 x2c) eq_refl).
Defined.

(** ** Formatting of bytes *)

Lemma all_byte_pairs (Q : Z -> Z -> bool) :
  all_below (fun v => Q (v / 256) (v mod 256)) 65536 = true ->
  forall n m : Z, 0 <= n < 256 -> 0 <= m < 256 -> Q n m = true.
Proof.
  intros H n m Hn Hm.
  pose proof (all_below_spec _ 65536 H (256 * n + m) ltac:(lia)) as E.
  cbv beta in E.
  replace ((256 * n + m) / 256) with n in E
    by (Z.div_mod_to_equations; lia).
  replace ((256 * n + m) mod 256) with m in E
    by (Z.div_mod_to_equations; lia).
  exact E.
Qed.

Lemma format_02X_shape_check :
  all_below (fun n =>
     Nat.eqb (String.length (format_02X n)) 2 &&
     forallb is_hex_upper (list_ascii_of_string (format_02X n))) 256 = true.
Proof. vm_compute. reflexivity. Qed.

Lemma format_02X_inj_check :
  all_below (fun v =>
     let n := v / 256 in
     let m := v mod 256 in
     if String.eqb (format_02X n) (format_02X m) then n =? m else true)
    65536 = true.
Proof. vm_compute. reflexivity. Qed.

Lemma format_02X_shape (n : Z) :
  0 <= n < 256 ->
  String.length (format_02X n) = 2%nat /\
  forallb is_hex_upper (list_ascii_of_string (format_02X n)) = true.
Proof.
  intros Hn.
  pose proof (all_below_spec _ 256 format_02X_shape_check n Hn) as S.
  cbv beta in S. apply andb_prop in S. destruct S as [L C].
  apply Nat.eqb_eq in L. split; assumption.
Qed.

Lemma format_02X_injective (n m : Z) :
  0 <= n < 256 -> 0 <= m < 256 -> format_02X n = format_02X m -> n = m.
Proof.
  intros Hn Hm E.
  pose proof (all_byte_pairs
    (fun n m => if String.eqb (format_02X n) (format_02X m)
                then n =? m else true)
    format_02X_inj_check n m Hn Hm) as I.
  cbv beta in I. rewrite E, String.eqb_refl in I. now apply Z.eqb_eq.
Qed.

(** X13: for a byte value, ["{:02X}".format] gives exactly two
    characters, each one of 0-9 or A-F, and different byte values give
    different strings. *)
Theorem format_02X_byte :
  forall n m : Z,
    0 <= n < 256 -> 0 <= m < 256 ->
    String.length (format_02X n) = 2%nat /\
    forallb is_hex_upper (list_ascii_of_string (format_02X n)) = true /\
    (format_02X n = format_02X m -> n = m).
Proof.
  intros n m Hn Hm.
  destruct (format_02X_shape n Hn) as [L C].
  repeat split; try assumption.
  now apply format_02X_injective.
Qed.

Lemma format_02X_byte_witness :
  String.length (format_02X 0x0A) = 2%nat /\
  (format_02X 0x0A = format_02X 0x0A -> 0x0A = 0x0A).
Proof.
  pose proof (format_02X_byte 0x0A 0x0A ltac:(lia) ltac:(lia)) as (L & _ & I).
  exact (conj L I).
Defined.

(** ** Width and content of the diagnostic *)

Ltac width_case :=
  let v := fresh "v" in
  let E := fresh "E" in
  intros v E; eexists; split;
  [ symmetry; injection E as E; exact E
  | rewrite ?masked_cell, ?plain_cell; reflexivity ].

(** X14: the string of an "unmapped" signal of an 8-byte frame is always
    23 characters long: eight cells of two characters and seven
    spaces. *)
Theorem unmapped_width :
  forall (i : Z) (b0 b1 b2 b3 b4 b5 b6 b7 : byte) (v : value),
    decoded (mkDecoder true)
      (mkMessage i [b0; b1; b2; b3; b4; b5; b6; b7]) "unmapped" = Some v ->
    exists s : string, v = VStr s /\ String.length s = 23%nat.
Proof.
  intros i b0 b1 b2 b3 b4 b5 b6 b7 v. unfold decoded.
  destruct (known_id i) eqn:K.
  - destruct (known_id_cases i K) as [-> | [-> | [-> | [-> | ->]]]].
    + rewrite decode_0x120_trace. revert v. width_case.
    + rewrite decode_0x129_trace. revert v. width_case.
    + rewrite decode_0x12A_trace. revert v. width_case.
    + rewrite decode_0x12B_trace. revert v. width_case.
    + rewrite decode_0x540_trace.
      destruct (byte_val b0 =? 2); [|discriminate].
      destruct (byte_val b5 =? 0); [|discriminate].
      revert v. width_case.
  - rewrite decode_unknown by assumption. discriminate.
Qed.

Lemma unmapped_width_witness :
  exists s : string,
    VStr "__ __ __ EF FE FF FF __" = VStr s /\ String.length s = 23%nat.
Proof.
  exact (unmapped_width 0x120 xff xff xff xff xff xff xff xff
           (VStr "__ __ __ EF FE FF FF __") eq_refl).
Defined.

Lemma byte_val_inj (b c : byte) : byte_val b = byte_val c -> b = c.
Proof.
  unfold byte_val. intros E. apply N2Z.inj in E.
  pose proof (Byte.of_to_N b) as Hb. pose proof (Byte.of_to_N c) as Hc.
  rewrite E in Hb. congruence.
Qed.

Lemma format_02X_byte_inj (b c : byte) :
  format_02X (byte_val b) = format_02X (byte_val c) -> b = c.
Proof.
  intros E. apply byte_val_inj.
  exact (format_02X_injective (byte_val b) (byte_val c)
           (byte_val_range b) (byte_val_range c) E).
Qed.

Lemma masked_bit6_check :
  all_below (fun v =>
     let n := v / 256 in
     let m := v mod 256 in
     if (Z.land n 0xBF =? Z.land m 0xBF) &&
        (Z.shiftr (Z.land n 0x40) 6 =? Z.shiftr (Z.land m 0x40) 6)
     then n =? m else true) 65536 = true.
Proof. vm_compute. reflexivity. Qed.

(** Two cells of two characters followed by a space and the same number
    of further cells are equal only when their first cells are. *)
Lemma cell_cons_inj (n m : Z) (r r' : string) :
  0 <= n < 256 -> 0 <= m < 256 ->
  String.append (format_02X n) (String " " r) =
  String.append (format_02X m) (String " " r') ->
  n = m /\ r = r'.
Proof.
  intros Hn Hm. rewrite !format_02X_two_hex by assumption.
  intros E. unfold two_hex in E. cbn [String.append] in E.
  injection E as E1 E2 E3. split; [|assumption].
  apply (format_02X_injective n m Hn Hm).
  rewrite !format_02X_two_hex by assumption.
  exact (f_equal2 (fun a b => String a (String b "")) E1 E2).
Qed.

(** X15: with [emit_unmapped], the signals of an 8-byte 0x12A frame
    determine its payload: two frames that yield the same signals have
    the same eight bytes. *)
Theorem decode_0x12A_lossless :
  forall b0 b1 b2 b3 b4 b5 b6 b7 c0 c1 c2 c3 c4 c5 c6 c7 : byte,
    signals (decode (mkDecoder true)
               (mkMessage 0x12A [b0; b1; b2; b3; b4; b5; b6; b7])) =
    signals (decode (mkDecoder true)
               (mkMessage 0x12A [c0; c1; c2; c3; c4; c5; c6; c7])) ->
    [b0; b1; b2; b3; b4; b5; b6; b7] = [c0; c1; c2; c3; c4; c5; c6; c7].
Proof.
  intros b0 b1 b2 b3 b4 b5 b6 b7 c0 c1 c2 c3 c4 c5 c6 c7.
  rewrite !decode_0x12A_trace. cbn [emit_unmapped yield signals].
  intros E. injection E as Ebit Estr.
  unfold join in Estr. cbn [String.concat] in Estr.
  pose proof (byte_val_range b0). pose proof (byte_val_range c0).
  pose proof (land_byte_range b1 0xBF). pose proof (land_byte_range c1 0xBF).
  pose proof (byte_val_range b2). pose proof (byte_val_range c2).
  pose proof (byte_val_range b3). pose proof (byte_val_range c3).
  pose proof (byte_val_range b4). pose proof (byte_val_range c4).
  pose proof (byte_val_range b5). pose proof (byte_val_range c5).
  pose proof (byte_val_range b6). pose proof (byte_val_range c6).
  apply cell_cons_inj in Estr; [|assumption|assumption].
  destruct Estr as [E0 Estr].
  apply cell_cons_inj in Estr; [|assumption|assumption].
  destruct Estr as [E1 Estr].
  apply cell_cons_inj in Estr; [|assumption|assumption].
  destruct Estr as [E2 Estr].
  apply cell_cons_inj in Estr; [|assumption|assumption].
  destruct Estr as [E3 Estr].
  apply cell_cons_inj in Estr; [|assumption|assumption].
  destruct Estr as [E4 Estr].
  apply cell_cons_inj in Estr; [|assumption|assumption].
  destruct Estr as [E5 Estr].
  apply cell_cons_inj in Estr; [|assumption|assumption].
  destruct Estr as [E6 E7].
  apply format_02X_byte_inj in E7.
  apply byte_val_inj in E0, E2, E3, E4, E5, E6.
  assert (B1 : b1 = c1).
  { apply byte_val_inj.
    pose proof (all_byte_pairs
      (fun n m => if (Z.land n 0xBF =? Z.land m 0xBF) &&
                     (Z.shiftr (Z.land n 0x40) 6 =? Z.shiftr (Z.land m 0x40) 6)
                  then n =? m else true)
      masked_bit6_check (byte_val b1) (byte_val c1)
      (byte_val_range b1) (byte_val_range c1)) as I.
    cbv beta in I. rewrite E1, Ebit, !Z.eqb_refl in I.
    now apply Z.eqb_eq. }
  congruence.
Qed.

Lemma decode_0x12A_lossless_witness :
  [x00; x40; x00; x00; x00; x00; x00; xff] =
  [x00; x40; x00; x00; x00; x00; x00; xff].
Proof.
  exact (decode_0x12A_lossless x00 x40 x00 x00 x00 x00 x00 xff
           x00 x40 x00 x00 x00 x00 x00 xff eq_refl).
Defined.

(** ** Truncated frames *)

(** X16: for a payload of at most eight bytes whose constant bytes, if
    the identifier is 0x540, are not wrong, [decode] ends in [IndexError]
    or [struct.error] exactly when the payload is shorter than what the
    handler reads. *)
Theorem length_error_iff_short :
  forall (self : Decoder) (i : Z) (data : list byte),
    (List.length data <= 8)%nat ->
    ~ (i = 0x540 /\ bad_constant data) ->
    (outcome (decode self (mkMessage i data)) = Some IndexError \/
     outcome (decode self (mkMessage i data)) = Some StructError <->
     (List.length data < required_len self i)%nat).
Proof.
  intros self i data L NB. split.
  - intros H.
    destruct (Nat.lt_ge_cases (List.length data) (required_len self i))
      as [Hlt|Hge]; [assumption|].
    destruct (full_payload_outcome self i data (conj Hge L)) as [NI NS].
    destruct H; contradiction.
  - intros H.
    pose proof (short_payload_outcome self i data H) as N.
    destruct (outcome (decode self (mkMessage i data))) as [[| |]|] eqn:E;
      auto; [|contradiction].
    exfalso. apply NB.
    exact (assertion_error_only_0x540 self (mkMessage i data) E).
Qed.

Lemma length_error_iff_short_witness :
  outcome (decode (mkDecoder true)
             (mkMessage 0x120 [x1a; x2b; x40; x10; x01])) = Some IndexError \/
  outcome (decode (mkDecoder true)
             (mkMessage 0x120 [x1a; x2b; x40; x10; x01])) = Some StructError.
Proof.
  refine (proj2 (length_error_iff_short (mkDecoder true) 0x120
            [x1a; x2b; x40; x10; x01] _ _) _).
  - cbn. lia.
  - intros [E _]. discriminate E.
  - cbn. lia.
Defined.

(** X17: cutting a payload of at most eight bytes short never changes a
    signal that is still yielded: what the truncated frame yields is the
    beginning of what the whole frame yields. *)
Theorem truncated_frame_yields_prefix :
  forall (self : Decoder) (i : Z) (data : list byte) (n : nat),
    (List.length data <= 8)%nat ->
    exists tail : list Signal,
      signals (decode self (mkMessage i data)) =
      (signals (decode self (mkMessage i (firstn n data))) ++ tail)%list.
Proof.
  intros self i data n L.
  destruct (known_id i) eqn:K.
  - destruct (known_id_cases i K) as [-> | [-> | [-> | [-> | ->]]]];
      destruct self as [[|]]; destruct_payload data;
      cbn [List.length] in L; try lia;
      destruct n as [|[|[|[|[|[|[|[|n]]]]]]]]; cbn [firstn];
      rewrite ?firstn_nil;
      run_handler; split_byte_tests; cbn [app];
      eexists; reflexivity.
  - rewrite !decode_unknown by assumption. exists []. reflexivity.
Qed.

Lemma truncated_frame_yields_prefix_witness :
  exists tail : list Signal,
    signals (decode (mkDecoder false)
               (mkMessage 0x120 [x1a; x2b; x40; x10; x01])) =
    (signals (decode (mkDecoder false)
                (mkMessage 0x120 (firstn 3 [x1a; x2b; x40; x10; x01])))
     ++ tail)%list.
Proof.
  apply (truncated_frame_yields_prefix (mkDecoder false) 0x120
           [x1a; x2b; x40; x10; x01] 3).
  cbn. lia.
Defined.
